(** * Beam memorandum generator (Main.py): a shallow embedding

    The program reads [beam_data.xlsx] with pandas, accumulates a pylatex
    document (cover, scope section with an optional figure, a sampled data
    table, two pgfplots charts) and asks pylatex to compile it.

    The embedding follows Main.py line by line.  Library behaviour the
    program relies on (Python number formatting, pandas row iteration,
    pylatex containers) is written out as executable definitions; the two
    pieces that are opaque to the program (the pylatex serialiser and the
    LaTeX compiler) are parameters. *)

From Stdlib Require Import ZArith List String Ascii Bool Lia.
From Stdlib Require Import Floats.SpecFloat.
From Stdlib Require DecimalString DecimalPos DecimalN.
Import ListNotations.

Local Open Scope string_scope.
Local Open Scope Z_scope.

(** ** Python values held by a table cell *)

Module Py.

(** IEEE binary64, as numpy's [float64] and Python's [float]. *)
Definition prec : Z := 53.
Definition emax : Z := 1024.

Definition float64 : Set := spec_float.

(** A cell as pandas hands it to the program: an integer ([int64] column),
    a float ([float64] column, [nan] for an empty cell) or text (an
    [object] column). *)
Inductive scalar : Set :=
| SInt (z : Z)
| SFloat (f : float64)
| SStr (s : string).

(** Exceptions the run can end with. *)
Inductive exn : Set :=
| FileNotFoundError (path : string)
| KeyError (key : string)
| ValueError (msg : string)
| CalledProcessError (cmd : string)
| CompilerError (msg : string).

Inductive result (A : Type) : Type :=
| Ok (a : A)
| Raise (e : exn).
Arguments Ok {A} a.
Arguments Raise {A} e.

Definition bind {A B : Type} (r : result A) (k : A -> result B) : result B :=
  match r with
  | Ok a => k a
  | Raise e => Raise e
  end.

Notation "x <- r ;; k" := (bind r (fun x => k))
  (at level 61, r at next level, right associativity).

Fixpoint mapM {A B : Type} (f : A -> result B) (l : list A) : result (list B) :=
  match l with
  | [] => Ok []
  | a :: t => b <- f a ;; bs <- mapM f t ;; Ok (b :: bs)
  end.

(** *** Decimal digits *)

Definition LF : string := String (ascii_of_nat 10) "".

Definition digit_char (d : Z) : ascii := ascii_of_nat (48 + Z.to_nat d).

Definition is_digit (c : ascii) : bool :=
  let n := nat_of_ascii c in (Nat.leb 48 n && Nat.leb n 57)%bool.

(** [str(n)] for a natural number. *)
Definition nat_str (n : Z) : string :=
  DecimalString.NilZero.string_of_uint (N.to_uint (Z.to_N n)).

(** The [p] low decimal digits of [n], zero padded on the left. *)
Fixpoint low_digits (p : nat) (n : Z) : string :=
  match p with
  | O => ""
  | S p' => low_digits p' (n / 10) ++ String (digit_char (n mod 10)) ""
  end.

Fixpoint zeros (n : nat) : string :=
  match n with
  | O => ""
  | S n' => String "0" (zeros n')
  end.

(** [str(z)] for a Python or numpy integer. *)
Definition int_str (z : Z) : string :=
  if z <? 0 then "-" ++ nat_str (- z) else nat_str z.

(** *** Float conversions *)

(** [float(z)]: nearest binary64, ties to even. *)
Definition float_of_int (z : Z) : float64 := binary_normalize prec emax z 0 false.

(** Quotient of [a / b] rounded to the nearest integer, ties to even
    ([b > 0], [a >= 0]). *)
Definition div_half_even (a b : Z) : Z :=
  let q := a / b in
  let r := a mod b in
  match 2 * r ?= b with
  | Lt => q
  | Gt => q + 1
  | Eq => if Z.even q then q else q + 1
  end.

(** [round(m * 2^e * 10^p)] to the nearest integer, ties to even: the
    digit string produced by the correctly rounded [%.pf] conversion. *)
Definition scaled_round (p : nat) (m : positive) (e : Z) : Z :=
  let num := Z.pos m * 10 ^ Z.of_nat p in
  if 0 <=? e then num * 2 ^ e else div_half_even num (2 ^ (- e)).

Definition fixed_digits (p : nat) (n : Z) : string :=
  nat_str (n / 10 ^ Z.of_nat p) ++
  match p with O => "" | _ => "." ++ low_digits p n end.

(** [format(x, '.pf')] for a float. *)
Definition float_format_fixed (p : nat) (x : float64) : string :=
  match x with
  | S754_nan => "nan"
  | S754_infinity s => if s then "-inf" else "inf"
  | S754_zero s => (if s then "-" else "") ++ fixed_digits p 0
  | S754_finite s m e =>
      (if s then "-" else "") ++ fixed_digits p (scaled_round p m e)
  end.

(** *** [repr] of a float: the shortest decimal that reads back as the same
    binary64, closest to the exact value when several have that length *)

(** The value [m * 2^e] is [Z.pos m * up / down] with: *)
Definition pow2_up (e : Z) : Z := 2 ^ Z.max e 0.
Definition pow2_down (e : Z) : Z := 2 ^ Z.max (- e) 0.
Definition pow10_up (k : Z) : Z := 10 ^ Z.max (- k) 0.
Definition pow10_down (k : Z) : Z := 10 ^ Z.max k 0.

(** [m * 2^e < 10^g] *)
Definition below_pow10 (m : positive) (e g : Z) : bool :=
  Z.pos m * pow2_up e * pow10_up g <? pow2_down e * pow10_down g.

Fixpoint first_pow10_above (fuel : nat) (m : positive) (e g : Z) : Z :=
  match fuel with
  | O => g
  | S fuel' =>
      if below_pow10 m e g then g else first_pow10_above fuel' m e (g + 1)
  end.

(** The decimal point position [g]: [10^(g-1) <= m * 2^e < 10^g]. *)
Definition decimal_point (m : positive) (e : Z) : Z :=
  let l2 := Z.log2 (Z.pos m) + e in
  first_pow10_above 4 m e (l2 * 30103 / 100000 - 1).

(** Four times the lower and upper ends of the interval of reals that
    round to [m * 2^e], in units of [2^e]. *)
Definition lower4 (m : positive) (e : Z) : Z :=
  if ((Z.pos m =? 2 ^ (prec - 1)) && (3 - emax - prec <? e))%bool
  then 4 * Z.pos m - 1 else 4 * Z.pos m - 2.
Definition upper4 (m : positive) : Z := 4 * Z.pos m + 2.

(** The integer [d] closest to [m * 2^e / 10^k] such that [d * 10^k] reads
    back as [m * 2^e], if there is one among the two neighbours. *)
Definition short_candidate (m : positive) (e k : Z) : option Z :=
  let a := pow2_up e * pow10_up k in
  let b := pow2_down e * pow10_down k in
  let v := Z.pos m * a in
  let inside d :=
    if Z.even (Z.pos m)
    then ((lower4 m e * a <=? 4 * d * b) && (4 * d * b <=? upper4 m * a))%bool
    else ((lower4 m e * a <? 4 * d * b) && (4 * d * b <? upper4 m * a))%bool in
  let lo := v / b in
  let hi := lo + 1 in
  match inside lo, inside hi with
  | true, false => Some lo
  | false, true => Some hi
  | false, false => None
  | true, true =>
      match v - lo * b ?= hi * b - v with
      | Lt => Some lo
      | Gt => Some hi
      | Eq => Some (if Z.even lo then lo else hi)
      end
  end.

(** Try 1, 2, ... significant digits; 17 always suffice for binary64. *)
Fixpoint shortest_digits (fuel : nat) (n : Z) (m : positive) (e g : Z) : Z * Z :=
  match fuel with
  | O => (div_half_even (Z.pos m * pow2_up e * pow10_up (g - n))
                        (pow2_down e * pow10_down (g - n)), g - n)
  | S fuel' =>
      match short_candidate m e (g - n) with
      | Some d => (d, g - n)
      | None => shortest_digits fuel' (n + 1) m e g
      end
  end.

Fixpoint strip_zeros (fuel : nat) (d k : Z) : Z * Z :=
  match fuel with
  | O => (d, k)
  | S fuel' =>
      if ((d mod 10 =? 0) && negb (d =? 0))%bool
      then strip_zeros fuel' (d / 10) (k + 1) else (d, k)
  end.

Definition string_head (s : string) : string :=
  match s with "" => "" | String c _ => String c "" end.
Definition string_tail (s : string) : string :=
  match s with "" => "" | String _ t => t end.

(** [repr] formatting of the digits [ds] with the decimal point after
    [g] digits: positional for [-4 < g <= 16], else exponent notation
    with at least two exponent digits. *)
Definition repr_layout (ds : string) (g : Z) : string :=
  let len := Z.of_nat (String.length ds) in
  if ((g <=? -4) || (16 <? g))%bool then
    let x := g - 1 in
    let xs := nat_str (Z.abs x) in
    string_head ds ++
    (match string_tail ds with "" => "" | t => "." ++ t end) ++
    "e" ++ (if x <? 0 then "-" else "+") ++
    (if Z.abs x <? 10 then "0" else "") ++ xs
  else if g <=? 0 then
    "0." ++ zeros (Z.to_nat (- g)) ++ ds
  else if len <=? g then
    ds ++ zeros (Z.to_nat (g - len)) ++ ".0"
  else
    substring 0 (Z.to_nat g) ds ++ "." ++
    substring (Z.to_nat g) (Z.to_nat (len - g)) ds.

(** [repr(x)], which is also [str(x)] and [format(x, '')]. *)
Definition float_repr (x : float64) : string :=
  match x with
  | S754_nan => "nan"
  | S754_infinity s => if s then "-inf" else "inf"
  | S754_zero s => if s then "-0.0" else "0.0"
  | S754_finite s m e =>
      let g := decimal_point m e in
      let '(d, k) := shortest_digits 17 1 m e g in
      let '(d', k') := strip_zeros 17 d k in
      let ds := nat_str d' in
      (if s then "-" else "") ++
      repr_layout ds (Z.of_nat (String.length ds) + k')
  end.

(** *** Formatting a cell inside an f-string *)

(** [f"{c}"] *)
Definition format_plain (c : scalar) : string :=
  match c with
  | SInt z => int_str z
  | SFloat x => float_repr x
  | SStr s => s
  end.

(** [f"{c:.pf}"]: an integer is converted with [float] first (an [int64]
    is always in the range of [float]); text has no ['f'] presentation. *)
Definition format_fixed (p : nat) (c : scalar) : result string :=
  match c with
  | SInt z => Ok (float_format_fixed p (float_of_int z))
  | SFloat x => Ok (float_format_fixed p x)
  | SStr _ => Raise (ValueError "Unknown format code 'f' for object of type 'str'")
  end.

End Py.

(** ** pandas: the table and its row iteration *)

Module Pandas.
Import Py.

Inductive dtype : Set := Int64 | Float64 | Object.

Definition dtype_eqb (a b : dtype) : bool :=
  match a, b with
  | Int64, Int64 | Float64, Float64 | Object, Object => true
  | _, _ => false
  end.

(** A frame: the column labels with their dtypes, and the rows in file
    order.  [read_excel] makes the labels distinct (a repeated header is
    renamed [X.1], ...). *)
Record DataFrame : Set := {
  columns : list (string * dtype);
  rows : list (list scalar)
}.

Definition labels (df : DataFrame) : list string := map fst (columns df).

(** A row as [iterrows] yields it: a Series indexed by the column labels. *)
Definition Series : Set := list (string * scalar).

(** [r[key]] *)
Fixpoint getitem (r : Series) (key : string) : result scalar :=
  match r with
  | [] => Raise (KeyError key)
  | (k, v) :: r' => if String.eqb k key then Ok v else getitem r' key
  end.

(** The dtype of [df.values]: one dtype for the whole block.  Any
    [object] column makes it [object]; otherwise any [float64] column
    makes it [float64]. *)
Definition common_dtype (df : DataFrame) : dtype :=
  let ds := map snd (columns df) in
  if existsb (dtype_eqb Object) ds then Object
  else if existsb (dtype_eqb Float64) ds then Float64
  else Int64.

(** Conversion of one cell to the block dtype: only an integer in a
    [float64] block changes. *)
Definition astype (d : dtype) (c : scalar) : scalar :=
  match d, c with
  | Float64, SInt z => SFloat (float_of_int z)
  | _, _ => c
  end.

(** [df.iterrows()], the index label of each row left out (the program
    binds it to [_]). *)
Definition iterrows (df : DataFrame) : list Series :=
  map (fun cells => combine (labels df) (map (astype (common_dtype df)) cells))
      (rows df).

(** A Python slice [l[::2]]. *)
Fixpoint every_other {A : Type} (l : list A) : list A :=
  match l with
  | [] => []
  | a :: t => a :: match t with [] => [] | _ :: t' => every_other t' end
  end.

(** [df.iloc[::2]] *)
Definition iloc_every_other (df : DataFrame) : DataFrame :=
  {| columns := columns df; rows := every_other (rows df) |}.

End Pandas.

(** ** pylatex: the document under construction *)

Module PyLatex.

(** A string put into the document: wrapped in [NoEscape] it is emitted
    as it is, a plain [str] is escaped by the serialiser. *)
Inductive Fragment : Set :=
| NoEscape (s : string)
| Str (s : string).

Inductive TableItem : Set :=
| Row (cells : list Fragment)
| HLine.

#[warnings="-register-all"]
Inductive LatexObject : Set :=
| Frag (f : Fragment)
| Section (title : string) (data : list LatexObject)
| Subsection (title : string) (data : list LatexObject)
| Figure (position : string) (data : list LatexObject)
| StandAloneGraphic (image_options : string) (filename : string)
| Caption (caption : string)
| Tabular (table_spec : string) (row_height : Py.float64) (data : list TableItem).

Coercion Frag : Fragment >-> LatexObject.

Record Package : Set := {
  package_name : string;
  package_options : list string
}.

(** What the program puts into a [Document]; what the constructor adds
    on its own is the serialiser's business. *)
Record Document : Set := {
  documentclass : string;
  document_options : list string;
  packages : list Package;
  preamble : list LatexObject;
  data : list LatexObject
}.

(** [fig.add_image(filename, width=w)]: the default placement
    [\centering], then the graphic. *)
Definition add_image (filename : string) (width : string) : list LatexObject :=
  [Frag (NoEscape "\centering");
   StandAloneGraphic ("width=" ++ width) filename].

End PyLatex.

(** ** The operating environment *)

Module Env.
Import Py Pandas.

Inductive file : Set :=
| Workbook (df : DataFrame)   (* a spreadsheet, as [read_excel] parses it *)
| Text (s : string)
| Binary (s : string).

(** The working directory, the installed LaTeX compilers (by command
    name; a compiler maps a source to the PDF it produces, or to nothing
    when it exits with an error) and what was printed so far. *)
Record World : Type := {
  fs : string -> option file;
  compilers : string -> option (string -> option string);
  stdout : list string
}.

Definition write_file (path : string) (f : file) (w : World) : World :=
  {| fs := fun p => if String.eqb p path then Some f else fs w p;
     compilers := compilers w;
     stdout := stdout w |}.

Definition remove_file (path : string) (w : World) : World :=
  {| fs := fun p => if String.eqb p path then None else fs w p;
     compilers := compilers w;
     stdout := stdout w |}.

(** [print(line)] *)
Definition print (line : string) (w : World) : World :=
  {| fs := fs w; compilers := compilers w; stdout := stdout w ++ [line] |}.

(** [os.path.exists(path)] *)
Definition os_path_exists (path : string) (w : World) : bool :=
  match fs w path with Some _ => true | None => false end.

(** [pd.read_excel(path)]: no column is looked at here. *)
Definition read_excel (path : string) (w : World) : result DataFrame :=
  match fs w path with
  | None => Raise (FileNotFoundError path)
  | Some (Workbook df) => Ok df
  | Some _ => Raise (ValueError "Excel file format cannot be determined")
  end.

End Env.

(** ** Main.py *)

Module Main.
Import Py Pandas PyLatex Env.

(** *** The two chart generators *)

(** [f"({r['X']}, {r[key]}) "] for one row: the two look-ups in source
    order, then the text. *)
Definition point_of_row (key : string) (r : Series) : result (scalar * scalar) :=
  x <- getitem r "X" ;; v <- getitem r key ;; Ok (x, v).

Definition point_text (pt : scalar * scalar) : string :=
  "(" ++ format_plain (fst pt) ++ ", " ++ format_plain (snd pt) ++ ") ".

Definition sfd_head : string :=
  "" ++ LF ++
  "    \begin{center}" ++ LF ++
  "    \begin{tikzpicture}" ++ LF ++
  "    \begin{axis}[width=11cm, height=5cm, axis x line=center, axis y line=left, " ++ LF ++
  "        xlabel=$x$, ylabel=$V$, grid=major, grid style={dotted, slate!30}," ++ LF ++
  "        title=\textbf{V-Diagram}, title style={color=accent}]" ++ LF ++
  "    \addplot[thick, accent, fill=accent, fill opacity=0.1] coordinates {".

Definition bmd_head : string :=
  "" ++ LF ++
  "    \begin{center}" ++ LF ++
  "    \begin{tikzpicture}" ++ LF ++
  "    \begin{axis}[width=11cm, height=5cm, axis x line=bottom, axis y line=left, " ++ LF ++
  "        xlabel=$x$, ylabel=$M$, grid=major, grid style={dotted, slate!30}," ++ LF ++
  "        title=\textbf{M-Diagram}, title style={color=slate}]" ++ LF ++
  "    \addplot[thick, slate, fill=slate, fill opacity=0.15] coordinates {".

Definition plot_tail : string :=
  "} \closedcycle;" ++ LF ++
  "    \end{axis}" ++ LF ++
  "    \end{tikzpicture}" ++ LF ++
  "    \end{center}" ++ LF ++
  "    ".

(** Lines 92-104. *)
Definition generate_sfd_plot (df : DataFrame) : result string :=
  pts <- mapM (point_of_row "Shear force") (iterrows df) ;;
  let coords := String.concat "" (map point_text pts) in
  Ok (sfd_head ++ coords ++ plot_tail).

(** Lines 106-118. *)
Definition generate_bmd_plot (df : DataFrame) : result string :=
  pts <- mapM (point_of_row "Bending Moment") (iterrows df) ;;
  let coords := String.concat "" (map point_text pts) in
  Ok (bmd_head ++ coords ++ plot_tail).

(** *** The report *)

Definition info_box : string :=
  "" ++ LF ++
  "    \begin{tcolorbox}[colframe=slate, colback=white, title=Project Identifiers]" ++ LF ++
  "    \textbf{Lead Engineer:} Apoorv Goyal \\" ++ LF ++
  "    \textbf{Registration ID:} 23BCG10116 \\" ++ LF ++
  "    \textbf{Subject:} Simply Supported Beam - 12m Span Analysis \\" ++ LF ++
  "    \textbf{Date of Issue:} \today" ++ LF ++
  "    \end{tcolorbox}" ++ LF ++
  "    ".

(** Lines 30-46: the cover block. *)
Definition cover : list LatexObject :=
  [Frag (NoEscape "\begin{center}");
   Frag (NoEscape "{\Huge \textbf{\color{slate}TECHNICAL MEMORANDUM} \par}");
   Frag (NoEscape "\vspace{0.5cm}");
   Frag (NoEscape "{\large \textit{Structural Analysis of Flexural Members}} \par");
   Frag (NoEscape "\vspace{0.8cm}");
   Frag (NoEscape info_box);
   Frag (NoEscape "\end{center}");
   Frag (NoEscape "\vspace{0.5cm}")].

(** Lines 53-56: the figure; the image goes in only if the file is there. *)
Definition beam_fig (w : World) : LatexObject :=
  Figure "h!"
    ((if os_path_exists "beam.png" w
      then add_image "beam.png" "0.6\textwidth" else []) ++
     [Caption "Analytical Free Body Diagram."]).

Definition scope_text : string :=
  "This memorandum presents the calculated internal force distribution for a primary structural element. The analysis focuses on deriving the Shear Force Diagram (SFD) and Bending Moment Diagram (BMD) under static load conditions.".

Definition modeling_text : string :=
  "The beam is modeled with ideal pinned-roller boundary conditions. The geometry and loading path are visualized in the figure below:".

(** Lines 48-56. *)
Definition scope_section (w : World) : LatexObject :=
  Section "Project Scope"
    [Frag (Str scope_text);
     Subsection "Configuration Modeling" [Frag (Str modeling_text); beam_fig w]].

(** Line 76: the three cells of one data row, formatted left to right. *)
Definition summary_row (row : Series) : result (list string) :=
  x <- getitem row "X" ;; xs <- format_fixed 2 x ;;
  v <- getitem row "Shear force" ;; vs <- format_fixed 1 v ;;
  m <- getitem row "Bending Moment" ;; ms <- format_fixed 1 m ;;
  Ok [xs; vs; ms].

Definition table_header : TableItem :=
  Row [NoEscape "\textbf{Point (m)}"; NoEscape "\textbf{Shear (kN)}";
       NoEscape "\textbf{Moment (kNm)}"].

(** The literal [1.4]. *)
Definition row_height_1_4 : float64 := S754_finite false 6305039478318694 (-52).

(** Lines 72-76. *)
Definition summary_table (df : DataFrame) : result LatexObject :=
  body <- mapM summary_row (iterrows (iloc_every_other df)) ;;
  Ok (Tabular "p{3cm} p{3cm} p{3cm}" row_height_1_4
        (table_header :: HLine :: map (fun cells => Row (map Str cells)) body)).

(** Lines 12-85, the appends in source order, given the table and the two
    chart texts. *)
Definition assemble (w : World) (table : LatexObject) (sfd bmd : string) : Document :=
     {| documentclass := "article";
        document_options := ["a4paper"; "11pt"];
        packages :=
          [ {| package_name := "tgadventor"; package_options := [] |};
            {| package_name := "tcolorbox"; package_options := [] |};
            {| package_name := "xcolor"; package_options := [] |};
            {| package_name := "tikz"; package_options := [] |};
            {| package_name := "pgfplots"; package_options := [] |};
            {| package_name := "geometry"; package_options := ["margin=0.75in"] |};
            {| package_name := "fancyhdr"; package_options := [] |} ];
        preamble :=
          [ Frag (NoEscape "\definecolor{slate}{HTML}{273746}");
            Frag (NoEscape "\definecolor{accent}{HTML}{2E86C1}");
            Frag (NoEscape "\renewcommand{\familydefault}{\sfdefault}");
            Frag (NoEscape "\pgfplotsset{compat=1.18}");
            Frag (NoEscape "\pagestyle{fancy}");
            Frag (NoEscape "\fancyhf{}");
            Frag (NoEscape "\lfoot{\small \color{gray} Apoorv Goyal | 23BCG10116}");
            Frag (NoEscape "\rfoot{\small Page \thepage}") ];
        data :=
          cover ++
          [ scope_section w;
            Frag (NoEscape "\newpage");
            Section "Numerical Computation Matrix"
              [ Frag (Str "Sampled data points extracted from the finite element simulation:");
                Frag (NoEscape "\vspace{0.3cm}");
                table ];
            Section "Internal Force Envelopes"
              [ Frag (Str "The graphical plots below describe the mechanical response of the beam.");
                Subsection "Shear Force Variance" [Frag (NoEscape sfd)];
                Subsection "Bending Moment Variance" [Frag (NoEscape bmd)] ] ] |}.

(** Lines 12-85: everything between loading the table and writing the
    PDF.  The three steps that can raise run in source order: the table
    loop, then the shear chart, then the moment chart.  The only thing
    read besides the table is whether [beam.png] exists. *)
Definition build_document (df : DataFrame) (w : World) : result Document :=
  table <- summary_table df ;;
  sfd <- generate_sfd_plot df ;;
  bmd <- generate_bmd_plot df ;;
  Ok (assemble w table sfd bmd).

Section Run.

(** pylatex's serialiser, [doc.dumps()]. *)
Variable dumps : Document -> string.

(** Modelled from the spec: pylatex's [generate_pdf] is a library routine
    outside the repository.  It writes the markup to [filepath.tex], runs
    the compiler on it and raises when no compiler of that name is
    installed or when the compiler exits with an error; the markup file is
    removed only after a successful compilation, and only if [clean_tex]. *)
Definition generate_pdf (filepath : string) (clean_tex : bool) (compiler : string)
    (doc : Document) (w : World) : result unit * World :=
  let tex := filepath ++ ".tex" in
  let w1 := write_file tex (Text (dumps doc)) w in
  match compilers w compiler with
  | None => (Raise (CompilerError "No LaTex compiler was found"), w1)
  | Some run =>
      match run (dumps doc) with
      | None => (Raise (CalledProcessError compiler), w1)
      | Some pdf =>
          let w2 := write_file (filepath ++ ".pdf") (Binary pdf) w1 in
          (Ok tt, if clean_tex then remove_file tex w2 else w2)
      end
  end.

(** Line 89. *)
Definition render (doc : Document) (w : World) : result unit * World :=
  generate_pdf "Apoorv_Goyal_Memorandum" false "pdflatex" doc w.

(** Line 9. *)
Definition load_table (w : World) : result DataFrame :=
  read_excel "beam_data.xlsx" w.

(** Lines 7-90: the whole run, with the world it leaves behind. *)
Definition generate_beam_report (w : World) : result unit * World :=
  let w := print "📊 Reading beam data from Excel..." w in
  match load_table w with
  | Raise e => (Raise e, w)
  | Ok df =>
      match build_document df w with
      | Raise e => (Raise e, w)
      | Ok doc =>
          let w := print "📄 Generating Memorandum PDF..." w in
          match render doc w with
          | (Raise e, w) => (Raise e, w)
          | (Ok _, w) =>
              (Ok tt, print "✅ Success: Apoorv_Goyal_Memorandum.pdf" w)
          end
      end
  end.

(** Lines 120-121: the script.  An exception nobody catches ends the
    interpreter with status 1, a normal return with status 0. *)
Definition script (w : World) : Z * World :=
  match generate_beam_report w with
  | (Ok _, w') => (0, w')
  | (Raise _, w') => (1, w')
  end.

End Run.

End Main.

(** ** Vocabulary for the statements *)

Module Spec.
Import Py Pandas PyLatex Env Main.


(** The exact value [m * 2^e] of a number, as the pair [(m, e)]. *)
Definition dyadic (c : scalar) : option (Z * Z) :=
  match c with
  | SInt z => Some (z, 0)
  | SFloat (S754_zero _) => Some (0, 0)
  | SFloat (S754_finite s m e) => Some (if s then Z.neg m else Z.pos m, e)
  | _ => None
  end.

(** Two cells that hold the same number. *)
Definition same_number (a b : scalar) : bool :=
  match dyadic a, dyadic b with
  | Some (m1, e1), Some (m2, e2) =>
      let e := Z.min e1 e2 in
      m1 * 2 ^ (e1 - e) =? m2 * 2 ^ (e2 - e)
  | _, _ => false
  end.

(** A cell of a valid record: a finite binary64 value, stored as a float
    or as an integer that [float] converts without rounding. *)
Definition numeric_cell (c : scalar) : bool :=
  match c with
  | SInt z => same_number (SFloat (float_of_int z)) (SInt z)
  | SFloat (S754_zero _) => true
  | SFloat (S754_finite s m e) => valid_binary prec emax (S754_finite s m e)
  | _ => false
  end.

Definition required : list string := ["X"; "Shear force"; "Bending Moment"].




Fixpoint all_digits (s : string) : bool :=
  match s with
  | "" => true
  | String c t => (is_digit c && all_digits t)%bool
  end.


(** [needle] occurs in [hay]. *)
Fixpoint occurs (needle hay : string) : bool :=
  (String.prefix needle hay ||
   match hay with
   | "" => false
   | String _ t => occurs needle t
   end)%bool.

(** The metadata the specification speaks of. *)
Record Metadata : Set := {
  author : string;
  id : string;
  subject : string;
  date : string
}.

(** The identifiers written into the source text of the program. *)
Definition fixed_metadata : Metadata :=
  {| author := "Apoorv Goyal";
     id := "23BCG10116";
     subject := "Simply Supported Beam - 12m Span Analysis";
     date := "\today" |}.

(** The cover block of a document: what comes before the first section. *)
Fixpoint before_first_section (l : list LatexObject) : list LatexObject :=
  match l with
  | [] => []
  | Section _ _ :: _ => []
  | x :: t => x :: before_first_section t
  end.

Fixpoint fragments_text (l : list LatexObject) : string :=
  match l with
  | [] => ""
  | Frag (NoEscape s) :: t => s ++ fragments_text t
  | Frag (Str s) :: t => s ++ fragments_text t
  | _ :: t => fragments_text t
  end.

Definition cover_text (doc : Document) : string :=
  fragments_text (before_first_section (data doc)).

(** The markup of the document built from [df] in world [w]. *)
Definition markup (dumps : Document -> string) (df : DataFrame) (w : World)
  : result string :=
  doc <- build_document df w ;; Ok (dumps doc).

(** The compilation step of [render] fails: no [pdflatex], or it exits
    with an error on the markup. *)
Definition compile_fails (dumps : Document -> string) (doc : Document) (w : World)
  : Prop :=
  match compilers w "pdflatex" with
  | None => True
  | Some run => run (dumps doc) = None
  end.


(** The coordinate sequence of a chart: the pairs the comprehension of
    [generate_sfd_plot] / [generate_bmd_plot] turns into text. *)
Definition chart_points (key : string) (df : DataFrame)
  : result (list (scalar * scalar)) :=
  mapM (point_of_row key) (iterrows df).

(** What a row holds, as stored, under the three labels the program reads. *)
Definition read_cells (df : DataFrame) (cells : list scalar)
  : result scalar * result scalar * result scalar :=
  let r := combine (labels df) cells in
  (getitem r "X", getitem r "Shear force", getitem r "Bending Moment").

(** The three columns of a table, row by row. *)
Definition three_columns_of (df : DataFrame)
  : list (result scalar * result scalar * result scalar) :=
  map (read_cells df) (rows df).

(** The table loop and the chart comprehension on what [read_cells] gives. *)
Definition summary_of_cells (t : result scalar * result scalar * result scalar)
  : result (list string) :=
  let '(rx, rv, rm) := t in
  x <- rx ;; xs <- format_fixed 2 x ;;
  v <- rv ;; vs <- format_fixed 1 v ;;
  m <- rm ;; ms <- format_fixed 1 m ;;
  Ok [xs; vs; ms].

Definition point_of_cells (d : dtype) (rx rv : result scalar)
  : result (scalar * scalar) :=
  x <- rx ;; v <- rv ;; Ok (astype d x, astype d v).

(** *** Sample tables and worlds *)

Definition three_columns : list (string * dtype) :=
  [("X", Int64); ("Shear force", Int64); ("Bending Moment", Int64)].

(** Rows [(0,0,0), (6,10,-5), (12,0,0)] in three integer columns. *)
Definition beam3 : DataFrame :=
  {| columns := three_columns;
     rows := [[SInt 0; SInt 0; SInt 0];
              [SInt 6; SInt 10; SInt (-5)];
              [SInt 12; SInt 0; SInt 0]] |}.

Definition f0 : float64 := S754_zero false.
Definition f6 : float64 := S754_finite false 6755399441055744 (-50).
Definition f10 : float64 := S754_finite false 5629499534213120 (-49).
Definition f12 : float64 := S754_finite false 6755399441055744 (-49).
Definition fm5 : float64 := S754_finite true 5629499534213120 (-50).

(** The same rows in three float columns. *)
Definition beam3_float : DataFrame :=
  {| columns := [("X", Float64); ("Shear force", Float64); ("Bending Moment", Float64)];
     rows := [[SFloat f0; SFloat f0; SFloat f0];
              [SFloat f6; SFloat f10; SFloat fm5];
              [SFloat f12; SFloat f0; SFloat f0]] |}.

(** [beam3] with a fourth column of floats. *)
Definition beam3_load : DataFrame :=
  {| columns := three_columns ++ [("Load", Float64)];
     rows := [[SInt 0; SInt 0; SInt 0; SFloat f0];
              [SInt 6; SInt 10; SInt (-5); SFloat f10];
              [SInt 12; SInt 0; SInt 0; SFloat f0]] |}.

(** A table without the [Shear force] column. *)
Definition no_shear : DataFrame :=
  {| columns := [("X", Int64); ("Bending Moment", Int64)];
     rows := [[SInt 0; SInt 0]; [SInt 6; SInt (-5)]] |}.

(** [beam3] with a fourth column of integers. *)
Definition beam3_node : DataFrame :=
  {| columns := three_columns ++ [("Node", Int64)];
     rows := [[SInt 0; SInt 0; SInt 0; SInt 1];
              [SInt 6; SInt 10; SInt (-5); SInt 2];
              [SInt 12; SInt 0; SInt 0; SInt 3]] |}.

(** A table whose first [X] cell is text. *)
Definition text_in_x : DataFrame :=
  {| columns := [("X", Object); ("Shear force", Int64); ("Bending Moment", Int64)];
     rows := [[SStr "left support"; SInt 0; SInt 0]] |}.

Definition empty_world : World :=
  {| fs := fun _ => None; compilers := fun _ => None; stdout := [] |}.

Definition world_with (df : DataFrame) : World :=
  write_file "beam_data.xlsx" (Workbook df) empty_world.

Definition world_with_image (df : DataFrame) : World :=
  write_file "beam.png" (Binary "PNG") (world_with df).

(** Worlds that agree on what a run reads. *)
Definition same_inputs (w w' : World) : Prop :=
  fs w' "beam_data.xlsx" = fs w "beam_data.xlsx" /\
  fs w' "beam.png" = fs w "beam.png" /\
  compilers w' = compilers w.

(** The files [render] writes. *)
Definition tex_path : string := "Apoorv_Goyal_Memorandum.tex".
Definition pdf_path : string := "Apoorv_Goyal_Memorandum.pdf".

(** A metadata value other than the one in the program text. *)
Definition other_metadata : Metadata :=
  {| author := "Jane Doe";
     id := "ID-0001";
     subject := "Cantilever - 3m Span";
     date := "2024-01-01" |}.

(** A serialiser to run examples with: the pieces of the document
    body that are strings, one after the other. *)
Definition plain_dumps (doc : Document) : string := fragments_text (data doc).

(** *** Vocabulary for the run, the build and the printed numbers *)

(** The three progress lines, in the order the run prints them. *)
Definition line_reading : string := "📊 Reading beam data from Excel...".
Definition line_generating : string := "📄 Generating Memorandum PDF...".
Definition line_success : string := "✅ Success: Apoorv_Goyal_Memorandum.pdf".

Definition is_text (c : scalar) : bool :=
  match c with SStr _ => true | _ => false end.

Definition is_int (c : scalar) : bool :=
  match c with SInt _ => true | _ => false end.

(** A row in which the three labels the program reads are found. *)
Definition row_readable (df : DataFrame) (cells : list scalar) : Prop :=
  exists x v m, read_cells df cells = (Ok x, Ok v, Ok m).

(** A row the table loop can format: the three cells are found and none
    of them is text. *)
Definition row_printable (df : DataFrame) (cells : list scalar) : Prop :=
  exists x v m,
    read_cells df cells = (Ok x, Ok v, Ok m) /\
    is_text x = false /\ is_text v = false /\ is_text m = false.

(** A row in which [X] and [key] are found. *)
Definition row_has (df : DataFrame) (key : string) (cells : list scalar) : Prop :=
  exists x v,
    getitem (combine (labels df) cells) "X" = Ok x /\
    getitem (combine (labels df) cells) key = Ok v.

(** A row whose three cells, where found, are not integers. *)
Definition row_without_int (t : result scalar * result scalar * result scalar)
  : bool :=
  let no_int r := match r with Ok c => negb (is_int c) | Raise _ => true end in
  let '(rx, rv, rm) := t in (no_int rx && no_int rv && no_int rm)%bool.

(** The frame [df] with other rows. *)
Definition with_rows (df : DataFrame) (rs : list (list scalar)) : DataFrame :=
  {| columns := columns df; rows := rs |}.

(** The coordinate text of a chart. *)
Definition coords_text (pts : list (scalar * scalar)) : string :=
  String.concat "" (map point_text pts).

(** The data rows of the summary table: what the loop of lines 75-76
    adds, in order. *)
Definition summary_body (df : DataFrame) : result (list (list string)) :=
  mapM summary_row (iterrows (iloc_every_other df)).

(** The error text of a ['.pf'] conversion applied to a [str]. *)
Definition format_error : exn :=
  ValueError "Unknown format code 'f' for object of type 'str'".

(** The number a run of digits denotes, continuing from [acc]. *)
Fixpoint digits_value (s : string) (acc : Z) : Z :=
  match s with
  | "" => acc
  | String c t => digits_value t (10 * acc + (Z.of_nat (nat_of_ascii c) - 48))
  end.

(** The printed text without its decimal point. *)
Fixpoint drop_point (s : string) : string :=
  match s with
  | "" => ""
  | String c t => if Ascii.eqb c "." then drop_point t else String c (drop_point t)
  end.

(** The number a fixed-point text denotes, counted in units of its last
    digit: [-12.34] is [-1234]. *)
Definition text_units (s : string) : Z :=
  match s with
  | String "-" t => - digits_value (drop_point t) 0
  | _ => digits_value (drop_point s) 0
  end.

(** *** Reading a coordinate list back *)

(** The text before the first [c] and the text after it. *)
Fixpoint take_until (c : ascii) (s : string) : option (string * string) :=
  match s with
  | "" => None
  | String a t =>
      if Ascii.eqb a c then Some ("", t)
      else match take_until c t with
           | Some (u, r) => Some (String a u, r)
           | None => None
           end
  end.

(** The points of a pgfplots coordinate list written as the program
    writes it, each point as [(x, y)] followed by one blank: the pairs of
    texts, in order; nothing if the text is not of that form. *)
Fixpoint read_points_fuel (fuel : nat) (s : string)
  : option (list (string * string)) :=
  match fuel with
  | O => None
  | S fuel' =>
      match s with
      | "" => Some []
      | String "(" t =>
          match take_until "," t with
          | Some (x, String " " r) =>
              match take_until ")" r with
              | Some (v, String " " r') =>
                  match read_points_fuel fuel' r' with
                  | Some l => Some ((x, v) :: l)
                  | None => None
                  end
              | _ => None
              end
          | _ => None
          end
      | _ => None
      end
  end.

Definition read_points (s : string) : option (list (string * string)) :=
  read_points_fuel (S (String.length s)) s.


(** *** Rounding to the nearest, ties to even *)

(** [u], counted in units of [10^-p], is the value [(-1)^s m 2^e] rounded
    to the nearest integer, a tie going to the even one. *)
Definition rounds_half_even (p : nat) (s : bool) (m : positive) (e : Z) (u : Z)
  : Prop :=
  let n := if s then - u else u in
  0 <= n /\
  (0 <= e -> n = Z.pos m * 10 ^ Z.of_nat p * 2 ^ e) /\
  (e < 0 ->
   Z.abs (2 * (n * 2 ^ (- e) - Z.pos m * 10 ^ Z.of_nat p)) <= 2 ^ (- e) /\
   (Z.abs (2 * (n * 2 ^ (- e) - Z.pos m * 10 ^ Z.of_nat p)) = 2 ^ (- e) ->
    Z.even n = true)).

End Spec.

(** ** Properties *)

Import Py Pandas PyLatex Env Main Spec.

(** *** The build step and the world *)

Lemma build_document_inv (df : DataFrame) (w : World) (doc : Document) :
  build_document df w = Ok doc ->
  exists table sfd bmd,
    summary_table df = Ok table /\
    generate_sfd_plot df = Ok sfd /\
    generate_bmd_plot df = Ok bmd /\
    doc = assemble w table sfd bmd.
Proof.
  unfold build_document.
  destruct (summary_table df) as [table|e]; [|discriminate].
  destruct (generate_sfd_plot df) as [sfd|e]; [|discriminate].
  destruct (generate_bmd_plot df) as [bmd|e]; [|discriminate].
  cbn [bind]. intros H; injection H as <-.
  exists table, sfd, bmd. repeat split.
Qed.

(** The build step raises, or not, whatever the world is. *)
Lemma build_document_raises_everywhere (df : DataFrame) (w w' : World) (e : exn) :
  build_document df w = Raise e -> build_document df w' = Raise e.
Proof.
  unfold build_document.
  destruct (summary_table df); [|exact (fun H => H)].
  destruct (generate_sfd_plot df); [|exact (fun H => H)].
  destruct (generate_bmd_plot df); [|exact (fun H => H)].
  discriminate.
Qed.

Lemma build_document_succeeds_everywhere (df : DataFrame) (w w' : World) (doc : Document) :
  build_document df w = Ok doc -> exists doc', build_document df w' = Ok doc'.
Proof.
  intros H. destruct (build_document df w') as [doc'|e] eqn:E.
  - now exists doc'.
  - rewrite (build_document_raises_everywhere _ _ _ _ E) in H. discriminate.
Qed.

Lemma assemble_same_image (w1 w2 : World) (table : LatexObject) (sfd bmd : string) :
  os_path_exists "beam.png" w1 = os_path_exists "beam.png" w2 ->
  assemble w1 table sfd bmd = assemble w2 table sfd bmd.
Proof.
  intros H. unfold assemble, scope_section, beam_fig. now rewrite H.
Qed.

Lemma build_document_same_image (df : DataFrame) (w1 w2 : World) :
  os_path_exists "beam.png" w1 = os_path_exists "beam.png" w2 ->
  build_document df w1 = build_document df w2.
Proof.
  intros H. unfold build_document.
  destruct (summary_table df); [|reflexivity].
  destruct (generate_sfd_plot df); [|reflexivity].
  destruct (generate_bmd_plot df); [|reflexivity].
  cbn [bind]. now rewrite (assemble_same_image w1 w2).
Qed.

(** *** What a run leaves untouched *)


Lemma same_inputs_refl (w : World) : same_inputs w w.
Proof. now repeat split. Qed.

Lemma same_inputs_trans (w1 w2 w3 : World) :
  same_inputs w1 w2 -> same_inputs w2 w3 -> same_inputs w1 w3.
Proof.
  intros (A & B & C) (A' & B' & C'). repeat split; congruence.
Qed.

Lemma same_inputs_print (line : string) (w : World) : same_inputs w (print line w).
Proof. now repeat split. Qed.

Lemma same_inputs_load (w w' : World) :
  same_inputs w w' -> load_table w' = load_table w.
Proof.
  intros (A & _). unfold load_table, read_excel. now rewrite A.
Qed.

Lemma same_inputs_build (df : DataFrame) (w w' : World) :
  same_inputs w w' -> build_document df w' = build_document df w.
Proof.
  intros (_ & B & _). apply build_document_same_image.
  unfold os_path_exists. now rewrite B.
Qed.

Section RunFacts.

Variable dumps : Document -> string.

Lemma same_inputs_render (doc : Document) (w : World) :
  same_inputs w (snd (render dumps doc w)).
Proof.
  unfold render, generate_pdf.
  destruct (compilers w "pdflatex") as [run|]; [|now repeat split].
  destruct (run (dumps doc)); now repeat split.
Qed.

Lemma same_inputs_run (w : World) :
  same_inputs w (snd (generate_beam_report dumps w)).
Proof.
  unfold generate_beam_report.
  set (w0 := print _ w).
  assert (H0 : same_inputs w w0) by apply same_inputs_print.
  destruct (load_table w0) as [df|e]; [|exact H0].
  destruct (build_document df w0) as [doc|e]; [|exact H0].
  set (w1 := print _ w0).
  assert (H1 : same_inputs w w1)
    by (eapply same_inputs_trans; [exact H0 | apply same_inputs_print]).
  pose proof (same_inputs_render doc w1) as H2.
  destruct (render dumps doc w1) as [[u|e] w2]; cbn [snd] in *.
  - eapply same_inputs_trans; [|apply same_inputs_print].
    exact (same_inputs_trans _ _ _ H1 H2).
  - exact (same_inputs_trans _ _ _ H1 H2).
Qed.

End RunFacts.

(** *** The optional image *)

(** C4.  When [beam.png] does not exist the figure of the scope
    subsection holds its caption only, the subsection text around it is
    still there and nothing is raised: a build that succeeds does so in
    every world.  When the file exists the figure also holds the image. *)
Theorem missing_image_is_skipped (df : DataFrame) (w : World) (doc : Document) :
  build_document df w = Ok doc ->
  (os_path_exists "beam.png" w = false ->
   In (Section "Project Scope"
         [Frag (Str scope_text);
          Subsection "Configuration Modeling"
            [Frag (Str modeling_text);
             Figure "h!" [Caption "Analytical Free Body Diagram."]]])
      (data doc)) /\
  (os_path_exists "beam.png" w = true ->
   In (Section "Project Scope"
         [Frag (Str scope_text);
          Subsection "Configuration Modeling"
            [Frag (Str modeling_text);
             Figure "h!" [Frag (NoEscape "\centering");
                          StandAloneGraphic "width=0.6\textwidth" "beam.png";
                          Caption "Analytical Free Body Diagram."]]])
      (data doc)) /\
  (forall w', exists doc', build_document df w' = Ok doc').
Proof.
  intros H.
  destruct (build_document_inv _ _ _ H) as (table & sfd & bmd & _ & _ & _ & ->).
  split; [|split].
  - intros E. unfold assemble, scope_section, beam_fig; cbn [data].
    rewrite E. apply in_or_app; right. now left.
  - intros E. unfold assemble, scope_section, beam_fig; cbn [data].
    rewrite E. apply in_or_app; right. now left.
  - intros w'. exact (build_document_succeeds_everywhere _ _ _ _ H).
Qed.

Lemma missing_image_is_skipped_witness :
  exists doc,
    build_document beam3 (world_with beam3) = Ok doc /\
    os_path_exists "beam.png" (world_with beam3) = false /\
    In (Section "Project Scope"
          [Frag (Str scope_text);
           Subsection "Configuration Modeling"
             [Frag (Str modeling_text);
              Figure "h!" [Caption "Analytical Free Body Diagram."]]])
       (data doc).
Proof.
  destruct (build_document beam3 (world_with beam3)) as [doc|e] eqn:E;
    [|vm_compute in E; discriminate E].
  exists doc. split; [reflexivity|]. split; [reflexivity|].
  apply (missing_image_is_skipped beam3 (world_with beam3) doc E).
  reflexivity.
Defined.

(** *** Determinism *)

(** C5, counterexample.  The same table gives two different documents in
    two worlds that differ in [beam.png] only. *)
Lemma build_document_reads_filesystem :
  build_document beam3 (world_with beam3) <>
  build_document beam3 (world_with_image beam3).
Proof.
  intros H.
  assert (D : forall d1 d2, d1 = d2 ->
            nth_error (data d1) 8 = nth_error (data d2) 8) by (now intros ? ? ->).
  destruct (build_document beam3 (world_with beam3)) as [d1|e1] eqn:E1;
    [|vm_compute in E1; discriminate E1].
  destruct (build_document beam3 (world_with_image beam3)) as [d2|e2] eqn:E2;
    [|discriminate H].
  injection H as H. apply D in H.
  destruct (build_document_inv _ _ _ E1) as (t1 & s1 & b1 & _ & _ & _ & ->).
  destruct (build_document_inv _ _ _ E2) as (t2 & s2 & b2 & _ & _ & _ & ->).
  vm_compute in H. discriminate H.
Qed.

(** C5, as amended.  The document is a function of the table and of
    whether [beam.png] exists, and of nothing else in the world; there is
    no metadata argument. *)
Theorem build_document_deterministic (df : DataFrame) (w1 w2 : World) :
  os_path_exists "beam.png" w1 = os_path_exists "beam.png" w2 ->
  build_document df w1 = build_document df w2.
Proof. apply build_document_same_image. Qed.

Lemma build_document_deterministic_witness :
  os_path_exists "beam.png" (world_with beam3) =
  os_path_exists "beam.png" (print "again" (world_with beam3_float)) /\
  build_document beam3 (world_with beam3) =
  build_document beam3 (print "again" (world_with beam3_float)).
Proof.
  split; [reflexivity|].
  apply (build_document_deterministic beam3). reflexivity.
Defined.

(** *** Building again *)

Section Again.

Variable dumps : Document -> string.


Lemma render_writes_markup (doc : Document) (w : World) :
  fs (snd (render dumps doc w)) tex_path = Some (Text (dumps doc)).
Proof.
  unfold render, generate_pdf.
  destruct (compilers w "pdflatex") as [run|]; [|reflexivity].
  destruct (run (dumps doc)); reflexivity.
Qed.

(** The markup file a run leaves behind. *)
Lemma run_markup_file (w : World) :
  fs (snd (generate_beam_report dumps w)) tex_path =
  match load_table w with
  | Raise _ => fs w tex_path
  | Ok df =>
      match build_document df w with
      | Raise _ => fs w tex_path
      | Ok doc => Some (Text (dumps doc))
      end
  end.
Proof.
  unfold generate_beam_report.
  set (w0 := print _ w).
  assert (L : load_table w0 = load_table w) by reflexivity.
  rewrite L. destruct (load_table w) as [df|e]; [|reflexivity].
  assert (B : build_document df w0 = build_document df w) by reflexivity.
  rewrite B. destruct (build_document df w) as [doc|e]; [|reflexivity].
  set (w1 := print _ w0).
  pose proof (render_writes_markup doc w1) as R.
  destruct (render dumps doc w1) as [[u|e] w2]; exact R.
Qed.

(** C6.  A second call in the world the first run left behind loads the
    same table and builds the same markup, byte for byte; the markup file
    a second run leaves is the one the first run left. *)
Theorem rebuild_same_markup (df : DataFrame) (w : World) :
  markup dumps df (snd (generate_beam_report dumps w)) = markup dumps df w /\
  load_table (snd (generate_beam_report dumps w)) = load_table w /\
  fs (snd (generate_beam_report dumps (snd (generate_beam_report dumps w)))) tex_path =
  fs (snd (generate_beam_report dumps w)) tex_path.
Proof.
  pose proof (same_inputs_run dumps w) as S.
  split; [|split].
  - unfold markup. now rewrite (same_inputs_build df _ _ S).
  - exact (same_inputs_load _ _ S).
  - rewrite (run_markup_file (snd (generate_beam_report dumps w))).
    rewrite (same_inputs_load _ _ S).
    destruct (load_table w) as [t|e] eqn:L; [|reflexivity].
    rewrite (same_inputs_build t _ _ S).
    destruct (build_document t w) as [doc|e] eqn:B; [|reflexivity].
    rewrite run_markup_file, L, B. reflexivity.
Qed.

(** *** Rendering *)

(** C9.  [render] raises exactly when the compilation step fails, with
    the compiler's error or the missing-compiler error, and then the
    markup it wrote is still in place and no PDF was written. *)
Theorem render_fails_iff_compile_fails (doc : Document) (w : World) :
  ((exists e, fst (render dumps doc w) = Raise e) <-> compile_fails dumps doc w) /\
  (compile_fails dumps doc w ->
   (fst (render dumps doc w) = Raise (CalledProcessError "pdflatex") \/
    fst (render dumps doc w) = Raise (CompilerError "No LaTex compiler was found")) /\
   fs (snd (render dumps doc w)) tex_path = Some (Text (dumps doc)) /\
   fs (snd (render dumps doc w)) pdf_path = fs w pdf_path).
Proof.
  unfold compile_fails, render, generate_pdf.
  destruct (compilers w "pdflatex") as [run|].
  - destruct (run (dumps doc)) as [pdf|]; cbn [fst snd].
    + split; [split|]; try discriminate. intros [e E]; discriminate E.
    + split; [split; [reflexivity | intros _; eexists; reflexivity]|].
      intros _. split; [now left|]. split; reflexivity.
  - cbn [fst snd]. split; [split; [intros _; exact I | intros _; eexists; reflexivity]|].
    intros _. split; [now right|]. split; reflexivity.
Qed.

End Again.

Lemma render_fails_iff_compile_fails_witness :
  compile_fails plain_dumps (assemble empty_world (Caption "") "" "") empty_world /\
  fs (snd (render plain_dumps (assemble empty_world (Caption "") "" "") empty_world))
     tex_path =
  Some (Text (plain_dumps (assemble empty_world (Caption "") "" ""))).
Proof.
  split; [exact I|].
  apply (render_fails_iff_compile_fails plain_dumps
           (assemble empty_world (Caption "") "" "") empty_world).
  exact I.
Defined.

(** *** The cover *)


Lemma before_first_section_assemble (w : World) (table : LatexObject) (sfd bmd : string) :
  before_first_section (data (assemble w table sfd bmd)) = cover.
Proof. reflexivity. Qed.

(** C7, counterexample.  There is no metadata argument: the cover of the
    built document does not carry the author of another metadata value. *)
Lemma cover_ignores_metadata :
  exists doc,
    build_document beam3 (world_with beam3) = Ok doc /\
    occurs (author other_metadata) (cover_text doc) = false.
Proof.
  destruct (build_document beam3 (world_with beam3)) as [doc|e] eqn:E;
    [|vm_compute in E; discriminate E].
  exists doc. split; [reflexivity|].
  destruct (build_document_inv _ _ _ E) as (t & s & b & _ & _ & _ & ->).
  unfold cover_text. rewrite before_first_section_assemble.
  vm_compute. reflexivity.
Qed.

(** C7, as amended.  The cover of every built document is the fixed cover
    block, which carries the author, id, subject and date that are
    written into the program text. *)
Theorem cover_has_fixed_identifiers (df : DataFrame) (w : World) (doc : Document) :
  build_document df w = Ok doc ->
  before_first_section (data doc) = cover /\
  In (Frag (NoEscape info_box)) cover /\
  occurs ("\textbf{Lead Engineer:} " ++ author fixed_metadata) info_box = true /\
  occurs ("\textbf{Registration ID:} " ++ id fixed_metadata) info_box = true /\
  occurs ("\textbf{Subject:} " ++ subject fixed_metadata) info_box = true /\
  occurs ("\textbf{Date of Issue:} " ++ date fixed_metadata) info_box = true.
Proof.
  intros H.
  destruct (build_document_inv _ _ _ H) as (t & s & b & _ & _ & _ & ->).
  split; [apply before_first_section_assemble|].
  split; [unfold cover; simpl; tauto|].
  repeat split; vm_compute; reflexivity.
Qed.

Lemma cover_has_fixed_identifiers_witness :
  exists doc,
    build_document beam3 (world_with beam3) = Ok doc /\
    before_first_section (data doc) = cover.
Proof.
  destruct (build_document beam3 (world_with beam3)) as [doc|e] eqn:E;
    [|vm_compute in E; discriminate E].
  exists doc. split; [reflexivity|].
  apply (cover_has_fixed_identifiers beam3 (world_with beam3) doc E).
Defined.

(** *** Lists, rows and look-ups *)

Section EveryOther.

Context {A : Type}.

(** Induction two elements at a time, the way [every_other] recurses. *)
Lemma list_pair_ind (P : list A -> Prop) :
  P [] -> (forall a, P [a]) -> (forall a b l, P l -> P (a :: b :: l)) ->
  forall l, P l.
Proof.
  intros H0 H1 H2.
  fix IH 1. intros [|a [|b l]].
  - exact H0.
  - apply H1.
  - apply H2, IH.
Qed.


Lemma every_other_nth_error (l : list A) (i : nat) :
  nth_error (every_other l) i = nth_error l (2 * i).
Proof.
  revert i. induction l as [| a | a b l IH] using list_pair_ind; intros [|i];
    try reflexivity.
  - cbn [every_other]. destruct i; reflexivity.
  - cbn [every_other nth_error]. rewrite IH.
    replace (2 * S i)%nat with (S (S (2 * i))) by lia. reflexivity.
Qed.

Lemma every_other_In (l : list A) (a : A) : In a (every_other l) -> In a l.
Proof.
  induction l as [| x | x y l IH] using list_pair_ind; cbn; intuition.
Qed.

End EveryOther.


Lemma mapM_ext_in {A B : Type} (f g : A -> result B) (l : list A) :
  (forall a, In a l -> f a = g a) -> mapM f l = mapM g l.
Proof.
  induction l as [|a l IH]; intros H; [reflexivity|].
  cbn [mapM]. rewrite (H a (or_introl eq_refl)).
  rewrite IH by (intros; apply H; now right). reflexivity.
Qed.

Lemma mapM_map {A B C : Type} (f : B -> result C) (h : A -> B) (l : list A) :
  mapM f (map h l) = mapM (fun a => f (h a)) l.
Proof.
  induction l as [|a l IH]; [reflexivity|].
  cbn [mapM map]. now rewrite IH.
Qed.

(** A look-up in a row whose cells went through [f] is [f] of the look-up
    in the row as stored. *)
Lemma getitem_combine_map (f : scalar -> scalar) (key : string)
    (ls : list string) (cells : list scalar) :
  getitem (combine ls (map f cells)) key =
  match getitem (combine ls cells) key with
  | Ok c => Ok (f c)
  | Raise e => Raise e
  end.
Proof.
  revert cells. induction ls as [|k ls IH]; intros [|c cells]; try reflexivity.
  cbn [combine map getitem]. destruct (String.eqb k key); [reflexivity|apply IH].
Qed.

Lemma getitem_raises_key (r : Series) (key : string) (e : exn) :
  getitem r key = Raise e -> e = KeyError key.
Proof.
  induction r as [|[k v] r IH]; cbn [getitem].
  - now intros [= <-].
  - destruct (String.eqb k key); [discriminate|exact IH].
Qed.

Lemma getitem_absent (ls : list string) (cells : list scalar) (key : string) :
  ~ In key ls -> getitem (combine ls cells) key = Raise (KeyError key).
Proof.
  revert cells. induction ls as [|k ls IH]; intros cells H.
  - reflexivity.
  - destruct cells as [|c cells]; [reflexivity|].
    cbn [combine getitem]. destruct (String.eqb_spec k key) as [->|_].
    + exfalso. apply H. now left.
    + apply IH. intros Hin. apply H. now right.
Qed.

Lemma format_fixed_astype (p : nat) (d : dtype) (c : scalar) :
  format_fixed p (astype d c) = format_fixed p c.
Proof. destruct d, c; reflexivity. Qed.

(** The table loop reads the rows as stored: the conversion to the block
    dtype does not change what [.2f] and [.1f] print. *)
Lemma summary_row_astype (d : dtype) (ls : list string) (cells : list scalar) :
  summary_row (combine ls (map (astype d) cells)) = summary_row (combine ls cells).
Proof.
  unfold summary_row. rewrite !getitem_combine_map.
  destruct (getitem (combine ls cells) "X") as [x|]; [|reflexivity].
  cbn [bind]. rewrite format_fixed_astype.
  destruct (format_fixed 2 x); [|reflexivity]. cbn [bind].
  destruct (getitem (combine ls cells) "Shear force") as [v|]; [|reflexivity].
  cbn [bind]. rewrite format_fixed_astype.
  destruct (format_fixed 1 v); [|reflexivity]. cbn [bind].
  destruct (getitem (combine ls cells) "Bending Moment") as [m|]; [|reflexivity].
  cbn [bind]. rewrite format_fixed_astype. reflexivity.
Qed.

(** *** Fixed-point text *)

Lemma all_digits_app (s t : string) :
  all_digits (s ++ t) = (all_digits s && all_digits t)%bool.
Proof.
  induction s as [|c s IH]; [reflexivity|].
  cbn [append all_digits]. rewrite IH. apply andb_assoc.
Qed.


Lemma is_digit_digit_char (d : Z) : 0 <= d < 10 -> is_digit (digit_char d) = true.
Proof.
  intros H.
  assert (C : d = 0 \/ d = 1 \/ d = 2 \/ d = 3 \/ d = 4 \/
              d = 5 \/ d = 6 \/ d = 7 \/ d = 8 \/ d = 9) by lia.
  repeat (destruct C as [->|C]; [reflexivity|]). now subst.
Qed.

Lemma low_digits_all_digits (p : nat) (n : Z) : all_digits (low_digits p n) = true.
Proof.
  revert n. induction p as [|p IH]; intros n; [reflexivity|].
  cbn [low_digits]. rewrite all_digits_app, IH. cbn [all_digits andb].
  rewrite is_digit_digit_char; [reflexivity|].
  apply Z.mod_pos_bound. lia.
Qed.


Lemma string_of_uint_all_digits (u : Decimal.uint) :
  all_digits (DecimalString.NilEmpty.string_of_uint u) = true.
Proof. induction u; cbn; auto. Qed.

Lemma nat_str_all_digits (n : Z) : all_digits (nat_str n) = true.
Proof.
  unfold nat_str, DecimalString.NilZero.string_of_uint.
  destruct (N.to_uint (Z.to_N n)) eqn:E; try reflexivity;
    rewrite <- E; apply string_of_uint_all_digits.
Qed.

Lemma nat_str_nonempty (n : Z) : nat_str n <> "".
Proof.
  unfold nat_str, DecimalString.NilZero.string_of_uint.
  destruct (N.to_uint (Z.to_N n)); discriminate.
Qed.









(** *** Integers that are binary64 values *)

Lemma digits2_pos_bounds (m : positive) :
  2 ^ (Z.pos (digits2_pos m) - 1) <= Z.pos m < 2 ^ Z.pos (digits2_pos m).
Proof.
  induction m as [m IH|m IH|].
  - cbn [digits2_pos]. rewrite Pos2Z.inj_succ.
    replace (Z.succ (Z.pos (digits2_pos m)) - 1)
      with (Z.pos (digits2_pos m) - 1 + 1) by lia.
    rewrite Z.pow_succ_r by lia. rewrite Z.pow_add_r by lia. lia.
  - cbn [digits2_pos]. rewrite Pos2Z.inj_succ.
    replace (Z.succ (Z.pos (digits2_pos m)) - 1)
      with (Z.pos (digits2_pos m) - 1 + 1) by lia.
    rewrite Z.pow_succ_r by lia. rewrite Z.pow_add_r by lia. lia.
  - cbn. lia.
Qed.

Lemma digits2_pos_iter_xO (m k : positive) :
  digits2_pos (Pos.iter xO m k) = (digits2_pos m + k)%positive.
Proof.
  revert m. induction k using Pos.peano_ind; intros m.
  - cbn. lia.
  - rewrite Pos.iter_succ. cbn [digits2_pos]. rewrite IHk. lia.
Qed.

Lemma pos_iter_xO_value (m k : positive) :
  Z.pos (Pos.iter xO m k) = Z.pos m * 2 ^ Z.pos k.
Proof.
  revert m. induction k using Pos.peano_ind; intros m.
  - cbn. lia.
  - rewrite Pos.iter_succ, Pos2Z.inj_succ, Z.pow_succ_r by lia.
    rewrite Pos2Z.inj_xO, IHk. lia.
Qed.

(** A 53-bit mantissa with an exponent in range is not rounded. *)
Lemma binary_round_aux_canonical (s : bool) (m : positive) (e : Z) :
  Z.pos (digits2_pos m) = 53 -> -1074 <= e <= 971 ->
  binary_round_aux prec emax s (Z.pos m) e loc_Exact = S754_finite s m e.
Proof.
  intros D E. unfold binary_round_aux, shr_fexp, Zdigits2, fexp, emin, prec, emax.
  rewrite D. cbn [shr_record_of_loc].
  replace (Z.max (53 + e - 53) (3 - 1024 - 53) - e) with 0 by lia.
  cbn [shr shr_m loc_of_shr_record round_nearest_even Zdigits2].
  rewrite D.
  replace (Z.max (53 + e - 53) (3 - 1024 - 53) - e) with 0 by lia.
  cbn [shr shr_m shr_record_of_loc].
  destruct (e <=? 1024 - 53) eqn:L; [reflexivity|]. apply Z.leb_gt in L. lia.
Qed.

Lemma binary_round_small (s : bool) (m : positive) :
  Z.pos m < 2 ^ 53 ->
  exists m' e',
    binary_round prec emax s m 0 = S754_finite s m' e' /\
    e' <= 0 /\ Z.pos m' = Z.pos m * 2 ^ (- e').
Proof.
  intros H. pose proof (digits2_pos_bounds m) as B.
  assert (D : Z.pos (digits2_pos m) <= 53).
  { destruct (Z_le_gt_dec (Z.pos (digits2_pos m)) 53) as [|G]; [assumption|].
    assert (2 ^ 53 <= 2 ^ (Z.pos (digits2_pos m) - 1))
      by (apply Z.pow_le_mono_r; lia).
    lia. }
  unfold binary_round, shl_align, fexp, emin.
  replace (Z.max (Z.pos (digits2_pos m) + 0 - prec) (3 - emax - prec))
    with (Z.pos (digits2_pos m) - 53) by (unfold prec, emax; lia).
  destruct (Z.pos (digits2_pos m) - 53 - 0) as [|p|p] eqn:S; try lia.
  - exists m, 0. rewrite binary_round_aux_canonical by lia.
    split; [reflexivity|]. split; [lia|]. cbn. lia.
  - replace (Z.pos (digits2_pos m) - 53) with (Z.neg p) by lia.
    exists (Pos.iter xO m p), (Z.neg p).
    rewrite binary_round_aux_canonical.
    + split; [reflexivity|]. split; [lia|].
      rewrite pos_iter_xO_value. reflexivity.
    + rewrite digits2_pos_iter_xO. lia.
    + lia.
Qed.

(** Every integer below [2^53] in magnitude is a valid cell: [float]
    converts it without rounding. *)
Lemma small_int_numeric_cell (z : Z) :
  Z.abs z < 2 ^ 53 -> numeric_cell (SInt z) = true.
Proof.
  intros H. unfold numeric_cell, float_of_int, binary_normalize.
  destruct z as [|m|m].
  - reflexivity.
  - destruct (binary_round_small false m) as (m' & e' & -> & E & V); [lia|].
    unfold same_number, dyadic. rewrite Z.min_l by lia.
    rewrite Z.sub_diag, Z.sub_0_l, V. apply Z.eqb_eq. cbn [Z.pow]. lia.
  - destruct (binary_round_small true m) as (m' & e' & -> & E & V); [lia|].
    unfold same_number, dyadic. rewrite Z.min_l by lia.
    rewrite Z.sub_diag, Z.sub_0_l. apply Z.eqb_eq.
    rewrite <- !Pos2Z.opp_pos, V. cbn [Z.pow]. lia.
Qed.

(** Beyond [2^53] the conversion rounds. *)
Example float_of_int_rounds :
  float_of_int (2 ^ 53 + 1) = float_of_int (2 ^ 53) /\
  numeric_cell (SInt (2 ^ 53 + 1)) = false.
Proof. split; vm_compute; reflexivity. Qed.

(** *** Rows of a valid table *)




(** *** The summary table *)

Lemma summary_row_read_cells (df : DataFrame) (cells : list scalar) :
  summary_row (combine (labels df) cells) = summary_of_cells (read_cells df cells).
Proof. reflexivity. Qed.

(** The table loop, on the rows as stored. *)
Lemma summary_table_stored (df : DataFrame) :
  summary_table df =
  (body <- mapM summary_of_cells (every_other (three_columns_of df)) ;;
   Ok (Tabular "p{3cm} p{3cm} p{3cm}" row_height_1_4
         (table_header :: HLine :: map (fun cells => Row (map Str cells)) body))).
Proof.
  unfold summary_table, iterrows, iloc_every_other, three_columns_of.
  cbn [rows columns labels]. f_equal.
  assert (E : forall l : list (list scalar),
             every_other (map (read_cells df) l) = map (read_cells df) (every_other l)).
  { induction l as [| a | a b l IH] using list_pair_ind; try reflexivity.
    cbn [map every_other]. now rewrite IH. }
  rewrite E, !mapM_map. apply mapM_ext_in. intros cells _.
  apply (summary_row_astype _ (labels df) cells).
Qed.


(** *** The charts *)

Lemma point_of_row_stored (key : string) (df : DataFrame) (cells : list scalar) :
  point_of_row key (combine (labels df) (map (astype (common_dtype df)) cells)) =
  point_of_cells (common_dtype df)
    (getitem (combine (labels df) cells) "X")
    (getitem (combine (labels df) cells) key).
Proof.
  unfold point_of_row, point_of_cells. rewrite !getitem_combine_map.
  destruct (getitem (combine (labels df) cells) "X"); [|reflexivity].
  cbn [bind]. destruct (getitem (combine (labels df) cells) key); reflexivity.
Qed.

Lemma chart_points_stored (key : string) (df : DataFrame) :
  chart_points key df =
  mapM (fun cells =>
          point_of_cells (common_dtype df)
            (getitem (combine (labels df) cells) "X")
            (getitem (combine (labels df) cells) key))
       (rows df).
Proof.
  unfold chart_points, iterrows. rewrite mapM_map.
  apply mapM_ext_in. intros cells _. apply point_of_row_stored.
Qed.

Lemma generate_sfd_plot_points (df : DataFrame) :
  generate_sfd_plot df =
  (pts <- chart_points "Shear force" df ;;
   Ok (sfd_head ++ String.concat "" (map point_text pts) ++ plot_tail)).
Proof. reflexivity. Qed.

Lemma generate_bmd_plot_points (df : DataFrame) :
  generate_bmd_plot df =
  (pts <- chart_points "Bending Moment" df ;;
   Ok (bmd_head ++ String.concat "" (map point_text pts) ++ plot_tail)).
Proof. reflexivity. Qed.





(** *** Which columns matter *)

Lemma chart_points_three_columns (key : string) (df : DataFrame) :
  In key ["Shear force"; "Bending Moment"] ->
  chart_points key df =
  mapM (fun t : result scalar * result scalar * result scalar =>
          let '(rx, rv, rm) := t in
          point_of_cells (common_dtype df) rx
            (if String.eqb key "Shear force" then rv else rm))
       (three_columns_of df).
Proof.
  intros K. rewrite chart_points_stored. unfold three_columns_of.
  rewrite mapM_map. apply mapM_ext_in. intros cells _. unfold read_cells.
  destruct K as [<-|[<-|[]]]; reflexivity.
Qed.

Lemma build_document_three_columns (df1 df2 : DataFrame) (w : World) :
  three_columns_of df1 = three_columns_of df2 ->
  common_dtype df1 = common_dtype df2 ->
  build_document df1 w = build_document df2 w.
Proof.
  intros T D. unfold build_document.
  rewrite !summary_table_stored, !generate_sfd_plot_points, !generate_bmd_plot_points.
  rewrite !chart_points_three_columns by (cbn; tauto).
  now rewrite T, D.
Qed.

(** C10, counterexample.  Two tables with the same three columns, one of
    them with a fourth column of floats: the chart text differs, and so
    does the document. *)
Lemma extra_column_changes_markup :
  three_columns_of beam3 = three_columns_of beam3_load /\
  generate_sfd_plot beam3 =
    Ok (sfd_head ++ "(0, 0) (6, 10) (12, 0) " ++ plot_tail) /\
  generate_sfd_plot beam3_load =
    Ok (sfd_head ++ "(0.0, 0.0) (6.0, 10.0) (12.0, 0.0) " ++ plot_tail) /\
  build_document beam3 empty_world <> build_document beam3_load empty_world.
Proof.
  split; [reflexivity|]. split; [vm_compute; reflexivity|].
  split; [vm_compute; reflexivity|].
  intros H.
  assert (D : forall d1 d2, d1 = d2 ->
            nth_error (data d1) 11 = nth_error (data d2) 11) by (now intros ? ? ->).
  destruct (build_document beam3 empty_world) as [d1|e1] eqn:E1;
    [|vm_compute in E1; discriminate E1].
  destruct (build_document beam3_load empty_world) as [d2|e2] eqn:E2;
    [|discriminate H].
  injection H as H. apply D in H.
  vm_compute in E1, E2. injection E1 as <-. injection E2 as <-.
  vm_compute in H. discriminate H.
Qed.

(** C10, as amended.  The document depends on the table through the
    columns [X], [Shear force] and [Bending Moment] and through the dtype
    of the row block: two tables that agree on both give the same
    document, and their summary tables agree whatever the dtypes. *)
Theorem markup_depends_on_three_columns_and_dtype
    (dumps : Document -> string) (df1 df2 : DataFrame) (w : World) :
  three_columns_of df1 = three_columns_of df2 ->
  (summary_table df1 = summary_table df2) /\
  (common_dtype df1 = common_dtype df2 ->
   build_document df1 w = build_document df2 w /\
   markup dumps df1 w = markup dumps df2 w).
Proof.
  intros T. split.
  - rewrite !summary_table_stored. now rewrite T.
  - intros D. unfold markup.
    now rewrite (build_document_three_columns df1 df2 w T D).
Qed.

Lemma markup_depends_on_three_columns_and_dtype_witness :
  three_columns_of beam3 = three_columns_of beam3_node /\
  common_dtype beam3 = common_dtype beam3_node /\
  build_document beam3 empty_world = build_document beam3_node empty_world /\
  markup plain_dumps beam3 empty_world = markup plain_dumps beam3_node empty_world.
Proof.
  split; [reflexivity|]. split; [reflexivity|].
  apply (markup_depends_on_three_columns_and_dtype plain_dumps beam3 beam3_node);
    reflexivity.
Defined.

(** *** Failures of the input *)

(** C3, counterexample.  A workbook without the [Shear force] column is
    loaded without any error. *)
Lemma load_accepts_missing_shear_column :
  ~ In "Shear force" (labels no_shear) /\
  load_table (world_with no_shear) = Ok no_shear /\
  ~ (exists e, load_table (world_with no_shear) = Raise e).
Proof.
  split; [cbn; intuition discriminate|].
  split; [reflexivity|]. intros [e H]. discriminate H.
Qed.

Lemma summary_table_first_row (df : DataFrame) (cells : list scalar)
    (rest : list (list scalar)) (e : exn) :
  rows df = cells :: rest ->
  summary_of_cells (read_cells df cells) = Raise e ->
  summary_table df = Raise e.
Proof.
  intros R H. rewrite summary_table_stored. unfold three_columns_of.
  rewrite R. cbn [map every_other mapM]. now rewrite H.
Qed.

Lemma build_document_no_rows (df : DataFrame) (w : World) :
  rows df = [] -> exists doc, build_document df w = Ok doc.
Proof.
  intros R. unfold build_document, summary_table, generate_sfd_plot,
    generate_bmd_plot, iterrows, iloc_every_other. cbn [rows]. rewrite R.
  cbn. eexists; reflexivity.
Qed.

(** *** The three-row example *)

(** C8.  For the rows [(0,0,0), (6,10,-5), (12,0,0)] the summary table
    has, after its header and rule, exactly the rows of indices 0 and 2,
    with positions [0.00] and [12.00]; the shear chart is drawn from
    exactly the points (0,0), (6,10), (12,0) in this order, and these are
    the points read back from the coordinate list it writes.  The list is
    written [(0, 0) (6, 10) (12, 0) ] when the cells are integers, and
    with [0.0], [6.0], ... when they are floats. *)
Theorem beam3_end_to_end :
  summary_table beam3 =
    Ok (Tabular "p{3cm} p{3cm} p{3cm}" row_height_1_4
          [table_header; HLine;
           Row [Str "0.00"; Str "0.0"; Str "0.0"];
           Row [Str "12.00"; Str "0.0"; Str "0.0"]]) /\
  summary_table beam3_float = summary_table beam3 /\
  chart_points "Shear force" beam3 =
    Ok [(SInt 0, SInt 0); (SInt 6, SInt 10); (SInt 12, SInt 0)] /\
  generate_sfd_plot beam3 =
    Ok (sfd_head ++ "(0, 0) (6, 10) (12, 0) " ++ plot_tail) /\
  read_points "(0, 0) (6, 10) (12, 0) " =
    Some [("0", "0"); ("6", "10"); ("12", "0")] /\
  chart_points "Shear force" beam3_float =
    Ok [(SFloat f0, SFloat f0); (SFloat f6, SFloat f10); (SFloat f12, SFloat f0)] /\
  forallb (fun p => same_number (fst p) (snd p))
    [(SFloat f0, SInt 0); (SFloat f6, SInt 6); (SFloat f10, SInt 10);
     (SFloat f12, SInt 12)] = true /\
  generate_sfd_plot beam3_float =
    Ok (sfd_head ++ "(0.0, 0.0) (6.0, 10.0) (12.0, 0.0) " ++ plot_tail) /\
  read_points "(0.0, 0.0) (6.0, 10.0) (12.0, 0.0) " =
    Some [("0.0", "0.0"); ("6.0", "10.0"); ("12.0", "0.0")].
Proof.
  repeat split; vm_compute; reflexivity.
Qed.

(** *** Rounding of the fixed-point text *)

(** The binary64 nearest to 2.675 lies below it, and 0.125 is a tie:
    ['.2f'] prints [2.67] and [0.12]. *)
Example format_fixed_samples :
  map (float_format_fixed 2)
    [ S754_finite false 6023564501608038 (-51);
      S754_finite false 4503599627370496 (-55);
      S754_finite true 4611686018427388 (-62);
      S754_finite false 8483885939586761 (-36) ] =
  ["2.67"; "0.12"; "-0.00"; "123456.79"].
Proof. vm_compute. reflexivity. Qed.

Example float_repr_samples :
  map float_repr
    [ S754_finite false 7205759403792794 (-56);
      S754_finite false 5000000000000000 1;
      S754_finite false 1 (-1074);
      S754_finite false 5902958103587057 (-69);
      S754_finite false 8483885939586761 (-36);
      float_of_int (2 ^ 53 + 1) ] =
  ["0.1"; "1e+16"; "5e-324"; "1e-05"; "123456.789"; "9007199254740992.0"].
Proof. vm_compute. reflexivity. Qed.

Lemma div_half_even_nearest (a b : Z) :
  0 < b -> Z.abs (2 * (div_half_even a b * b - a)) <= b.
Proof.
  intros Hb. unfold div_half_even.
  pose proof (Z.div_mod a b ltac:(lia)) as E.
  pose proof (Z.mod_pos_bound a b Hb) as R.
  destruct (2 * (a mod b) ?= b) eqn:C.
  - apply Z.compare_eq in C. destruct (Z.even (a / b)); nia.
  - rewrite Z.compare_lt_iff in C. nia.
  - rewrite Z.compare_gt_iff in C. nia.
Qed.

(** The digits printed by ['.pf'] for [m * 2^e] are those of the integer
    nearest to [m * 2^e * 10^p]. *)
Lemma scaled_round_nearest (p : nat) (m : positive) (e : Z) :
  (0 <= e -> scaled_round p m e = Z.pos m * 10 ^ Z.of_nat p * 2 ^ e) /\
  (e < 0 ->
   Z.abs (2 * (scaled_round p m e * 2 ^ (- e) - Z.pos m * 10 ^ Z.of_nat p))
   <= 2 ^ (- e)).
Proof.
  unfold scaled_round. split; intros H.
  - destruct (0 <=? e) eqn:E; [reflexivity|]. apply Z.leb_gt in E. lia.
  - destruct (0 <=? e) eqn:E; [apply Z.leb_le in E; lia|].
    apply div_half_even_nearest. apply Z.pow_pos_nonneg; lia.
Qed.

(** ** Further properties of the run *)

Section WholeRun.

Variable dumps : Document -> string.

Lemma run_unfold (w : World) :
  generate_beam_report dumps w =
  match load_table w with
  | Raise e => (Raise e, print line_reading w)
  | Ok df =>
      match build_document df w with
      | Raise e => (Raise e, print line_reading w)
      | Ok doc =>
          match render dumps doc (print line_generating (print line_reading w)) with
          | (Raise e, w') => (Raise e, w')
          | (Ok _, w') => (Ok tt, print line_success w')
          end
      end
  end.
Proof. reflexivity. Qed.

(** X1.  When the load or the build raises, the run ends with that
    exception, has printed the first progress line only and has written
    or changed no file. *)
Theorem run_fails_before_writing (w : World) (e : exn) :
  (load_table w = Raise e \/
   exists df, load_table w = Ok df /\ build_document df w = Raise e) ->
  fst (generate_beam_report dumps w) = Raise e /\
  fs (snd (generate_beam_report dumps w)) = fs w /\
  stdout (snd (generate_beam_report dumps w)) = (stdout w ++ [line_reading])%list.
Proof.
  rewrite run_unfold. intros [L | (df & L & B)].
  - rewrite L. now repeat split.
  - rewrite L, B. now repeat split.
Qed.

(** X2.  When the table loads, the document builds and [pdflatex] turns
    the markup into a PDF, the run returns normally, leaves the markup
    file (it is kept, [clean_tex=False]) and the PDF, and has printed the
    three progress lines in order. *)
Theorem run_success_artifacts (w : World) (df : DataFrame) (doc : Document)
    (run : string -> option string) (pdf : string) :
  load_table w = Ok df ->
  build_document df w = Ok doc ->
  compilers w "pdflatex" = Some run ->
  run (dumps doc) = Some pdf ->
  fst (generate_beam_report dumps w) = Ok tt /\
  fs (snd (generate_beam_report dumps w)) tex_path = Some (Text (dumps doc)) /\
  fs (snd (generate_beam_report dumps w)) pdf_path = Some (Binary pdf) /\
  stdout (snd (generate_beam_report dumps w)) =
    (stdout w ++ [line_reading; line_generating; line_success])%list.
Proof.
  intros L B C R. rewrite run_unfold, L, B.
  unfold render, generate_pdf. cbn [print compilers]. rewrite C, R.
  cbn [fst snd print stdout fs write_file].
  repeat split. now rewrite <- !app_assoc.
Qed.

(** X4.  A run reads its inputs and never changes them: after it,
    whatever its outcome, the spreadsheet and the image are the files they
    were before. *)
Theorem run_keeps_inputs (w : World) :
  fs (snd (generate_beam_report dumps w)) "beam_data.xlsx" = fs w "beam_data.xlsx" /\
  fs (snd (generate_beam_report dumps w)) "beam.png" = fs w "beam.png".
Proof.
  rewrite run_unfold.
  destruct (load_table w) as [df|e]; [|now split].
  destruct (build_document df w) as [doc|e]; [|now split].
  unfold render, generate_pdf. cbn [print compilers].
  destruct (compilers w "pdflatex") as [run|].
  - destruct (run (dumps doc)); now split.
  - now split.
Qed.

(** X5.  The script ends with status 0 exactly when the table loads, the
    document builds and the compilation succeeds; in every other case it
    ends with status 1. *)
Theorem script_exit_status (w : World) :
  (fst (script dumps w) = 0 \/ fst (script dumps w) = 1) /\
  (fst (script dumps w) = 0 <->
   exists df doc,
     load_table w = Ok df /\ build_document df w = Ok doc /\
     ~ compile_fails dumps doc w).
Proof.
  unfold script. rewrite run_unfold.
  destruct (load_table w) as [df|e] eqn:L.
  2:{ split; [now right|]. split; [discriminate|].
      intros (df & doc & H & _). discriminate H. }
  destruct (build_document df w) as [doc|e] eqn:B.
  2:{ split; [now right|]. split; [discriminate|].
      intros (df' & doc & H & H' & _).
      assert (df' = df) by congruence. subst df'. congruence. }
  assert (U : forall df' doc',
             Ok df = Ok df' -> build_document df' w = Ok doc' -> doc' = doc).
  { intros df' doc' H H'. assert (df' = df) by congruence. subst df'. congruence. }
  unfold render, generate_pdf. cbn [print compilers].
  destruct (compilers w "pdflatex") as [run|] eqn:C.
  - destruct (run (dumps doc)) as [pdf|] eqn:R; cbn [fst].
    + split; [now left|]. split; [|reflexivity].
      intros _. exists df, doc. split; [reflexivity|]. split; [exact B|].
      unfold compile_fails. rewrite C, R. discriminate.
    + split; [now right|]. split; [discriminate|].
      intros (df' & doc' & H & H' & N). rewrite (U _ _ H H') in N.
      exfalso. apply N. unfold compile_fails. now rewrite C.
  - cbn [fst]. split; [now right|]. split; [discriminate|].
    intros (df' & doc' & H & H' & N). rewrite (U _ _ H H') in N.
    exfalso. apply N. unfold compile_fails. now rewrite C.
Qed.

End WholeRun.

Lemma run_fails_before_writing_witness :
  fst (generate_beam_report plain_dumps (world_with no_shear)) =
    Raise (KeyError "Shear force") /\
  fs (snd (generate_beam_report plain_dumps (world_with no_shear))) =
    fs (world_with no_shear).
Proof.
  destruct (run_fails_before_writing plain_dumps (world_with no_shear)
              (KeyError "Shear force")) as (R & F & _).
  - right. exists no_shear. split; reflexivity.
  - now split.
Defined.

Lemma run_success_artifacts_witness :
  let w := {| fs := fs (world_with beam3);
              compilers := fun c => if String.eqb c "pdflatex"
                                    then Some (fun tex => Some ("%PDF " ++ tex))
                                    else None;
              stdout := [] |} in
  fst (generate_beam_report plain_dumps w) = Ok tt /\
  stdout (snd (generate_beam_report plain_dumps w)) =
    [line_reading; line_generating; line_success].
Proof.
  intros w.
  destruct (build_document beam3 w) as [doc|e] eqn:B;
    [|vm_compute in B; discriminate B].
  destruct (run_success_artifacts plain_dumps w beam3 doc
              (fun tex => Some ("%PDF " ++ tex)) ("%PDF " ++ plain_dumps doc)
              eq_refl B eq_refl eq_refl) as (R & _ & _ & S).
  split; [exact R | exact S].
Defined.

Lemma script_exit_status_witness :
  fst (script plain_dumps empty_world) = 1.
Proof.
  destruct (script_exit_status plain_dumps empty_world) as ([H|H] & E).
  - exfalso. apply E in H. destruct H as (df & doc & L & _). discriminate L.
  - exact H.
Defined.

(** ** Further properties of the build *)

Lemma mapM_ok_iff {A B : Type} (f : A -> result B) (l : list A) :
  (exists bs, mapM f l = Ok bs) <-> Forall (fun a => exists b, f a = Ok b) l.
Proof.
  induction l as [|a l IH]; cbn [mapM].
  - split; [constructor | intros _; now eexists].
  - split.
    + intros [bs H]. destruct (f a) as [b|e] eqn:E; [|discriminate H].
      cbn [bind] in H. destruct (mapM f l) as [bs'|e]; [|discriminate H].
      constructor; [now exists b|]. apply IH. now eexists.
    + intros H. inversion H as [|? ? [b E] T]; subst.
      apply IH in T as [bs T]. rewrite E, T. now eexists.
Qed.

Lemma mapM_raise_in {A B : Type} (f : A -> result B) (l : list A) (e : exn) :
  mapM f l = Raise e -> exists a, In a l /\ f a = Raise e.
Proof.
  induction l as [|a l IH]; cbn [mapM]; [discriminate|].
  destruct (f a) as [b|e'] eqn:E; cbn [bind].
  - destruct (mapM f l) as [bs|e'']; [discriminate|].
    cbn [bind]. intros [= <-]. destruct (IH eq_refl) as (a' & I' & F).
    exists a'. split; [now right | exact F].
  - intros [= <-]. exists a. split; [now left | exact E].
Qed.

Lemma mapM_app {A B : Type} (f : A -> result B) (l1 l2 : list A) :
  mapM f (l1 ++ l2) =
  (b1 <- mapM f l1 ;; b2 <- mapM f l2 ;; Ok (b1 ++ b2)%list).
Proof.
  induction l1 as [|a l1 IH]; cbn [mapM app bind].
  - destruct (mapM f l2); reflexivity.
  - destruct (f a); [|reflexivity]. cbn [bind]. rewrite IH.
    destruct (mapM f l1); [|reflexivity]. cbn [bind].
    destruct (mapM f l2); reflexivity.
Qed.

Lemma every_other_map {A B : Type} (f : A -> B) (l : list A) :
  every_other (map f l) = map f (every_other l).
Proof.
  induction l as [| a | a b l IH] using list_pair_ind; try reflexivity.
  cbn [map every_other]. now rewrite IH.
Qed.

(** The table loop on one row: what it raises, and when it raises
    nothing. *)
Lemma summary_of_cells_ok_iff (df : DataFrame) (cells : list scalar) :
  (exists l, summary_of_cells (read_cells df cells) = Ok l) <->
  row_printable df cells.
Proof.
  unfold row_printable. destruct (read_cells df cells) as [[rx rv] rm].
  cbn [summary_of_cells]. split.
  - intros [l H].
    destruct rx as [x|]; [|discriminate H].
    destruct x as [z|f|s]; [| |discriminate H];
      (destruct rv as [v|]; [|discriminate H];
       destruct v as [z'|f'|s']; [| |discriminate H];
         (destruct rm as [m|]; [|discriminate H];
          destruct m as [z''|f''|s'']; [| |discriminate H];
            eexists _, _, _; repeat split)).
  - intros (x & v & m & [= -> -> ->] & Hx & Hv & Hm).
    destruct x; [| |discriminate Hx]; (destruct v; [| |discriminate Hv]);
      (destruct m; [| |discriminate Hm]); eexists; reflexivity.
Qed.

Lemma summary_of_cells_raises (t : result scalar * result scalar * result scalar)
    (e : exn) :
  summary_of_cells t = Raise e ->
  e = format_error \/ fst (fst t) = Raise e \/ snd (fst t) = Raise e \/
  snd t = Raise e.
Proof.
  destruct t as [[rx rv] rm]. cbn [summary_of_cells fst snd].
  destruct rx as [x|ex]; cbn [bind]; [|intros [= <-]; tauto].
  destruct x as [z|f|s]; cbn [format_fixed bind]; [| |intros [= <-]; now left];
    (destruct rv as [v|ev]; cbn [bind]; [|intros [= <-]; tauto];
     destruct v as [z'|f'|s']; cbn [format_fixed bind];
       [| |intros [= <-]; now left];
       (destruct rm as [m|em]; cbn [bind]; [|intros [= <-]; tauto];
        destruct m as [z''|f''|s'']; cbn [format_fixed bind];
          [discriminate|discriminate|intros [= <-]; now left])).
Qed.

Lemma point_of_cells_ok_iff (d : dtype) (rx rv : result scalar) :
  (exists pt, point_of_cells d rx rv = Ok pt) <->
  exists x v, rx = Ok x /\ rv = Ok v.
Proof.
  unfold point_of_cells. split.
  - intros [pt H]. destruct rx as [x|]; [|discriminate H].
    destruct rv as [v|]; [|discriminate H]. now exists x, v.
  - intros (x & v & -> & ->). eexists; reflexivity.
Qed.

(** A chart comprehension raises nothing exactly when every row has [X]
    and the charted column, whatever the cells hold. *)
Lemma chart_points_ok_iff (key : string) (df : DataFrame) :
  (exists pts, chart_points key df = Ok pts) <-> Forall (row_has df key) (rows df).
Proof.
  rewrite chart_points_stored, mapM_ok_iff.
  split; intros H; eapply Forall_impl; try exact H;
    intros cells; cbv beta; apply point_of_cells_ok_iff.
Qed.

Lemma chart_points_raises (key : string) (df : DataFrame) (e : exn) :
  chart_points key df = Raise e -> e = KeyError "X" \/ e = KeyError key.
Proof.
  rewrite chart_points_stored. intros H.
  apply mapM_raise_in in H as (cells & _ & H). unfold point_of_cells in H.
  destruct (getitem (combine (labels df) cells) "X") as [x|ex] eqn:X.
  - destruct (getitem (combine (labels df) cells) key) as [v|ev] eqn:V;
      [discriminate H|].
    cbn [bind] in H. injection H as <-. right.
    exact (getitem_raises_key _ _ _ V).
  - cbn [bind] in H. injection H as <-. left.
    exact (getitem_raises_key _ _ _ X).
Qed.

Lemma generate_sfd_plot_ok_iff (df : DataFrame) :
  (exists txt, generate_sfd_plot df = Ok txt) <->
  (exists pts, chart_points "Shear force" df = Ok pts).
Proof.
  rewrite generate_sfd_plot_points.
  destruct (chart_points "Shear force" df) as [pts|e]; cbn [bind]; split;
    intros [x H]; try discriminate H; eexists; reflexivity.
Qed.

Lemma generate_bmd_plot_ok_iff (df : DataFrame) :
  (exists txt, generate_bmd_plot df = Ok txt) <->
  (exists pts, chart_points "Bending Moment" df = Ok pts).
Proof.
  rewrite generate_bmd_plot_points.
  destruct (chart_points "Bending Moment" df) as [pts|e]; cbn [bind]; split;
    intros [x H]; try discriminate H; eexists; reflexivity.
Qed.

Lemma summary_table_ok_iff (df : DataFrame) :
  (exists t, summary_table df = Ok t) <->
  Forall (row_printable df) (every_other (rows df)).
Proof.
  rewrite summary_table_stored. unfold three_columns_of.
  rewrite every_other_map.
  transitivity (exists body,
                  mapM summary_of_cells (map (read_cells df) (every_other (rows df)))
                  = Ok body).
  - destruct (mapM summary_of_cells _) as [body|e]; cbn [bind]; split;
      intros [x H]; try discriminate H; eexists; reflexivity.
  - rewrite mapM_ok_iff, Forall_map.
    split; intros H; eapply Forall_impl; try exact H;
      intros cells; cbv beta; apply summary_of_cells_ok_iff.
Qed.

Lemma row_readable_iff (df : DataFrame) (cells : list scalar) :
  row_readable df cells <->
  row_has df "Shear force" cells /\ row_has df "Bending Moment" cells.
Proof.
  unfold row_readable, row_has, read_cells. split.
  - intros (x & v & m & [= X V M]). split; eexists _, _; eauto.
  - intros [(x & v & X & V) (x' & m & _ & M)]. exists x, v, m. now rewrite X, V, M.
Qed.

(** X6.  The build raises nothing exactly when every row has the three
    columns and, in the rows of even index, none of the three cells is
    text.  Nothing else is asked of the table: the rows of odd index may
    hold text, and empty cells ([nan]) are accepted everywhere. *)
Theorem build_succeeds_iff (df : DataFrame) (w : World) :
  (exists doc, build_document df w = Ok doc) <->
  Forall (row_readable df) (rows df) /\
  Forall (row_printable df) (every_other (rows df)).
Proof.
  assert (R : Forall (row_readable df) (rows df) <->
              Forall (row_has df "Shear force") (rows df) /\
              Forall (row_has df "Bending Moment") (rows df)).
  { rewrite !Forall_forall. split.
    - intros H. split; intros c Hc; now apply row_readable_iff, H.
    - intros [H1 H2] c Hc. apply row_readable_iff. split; auto. }
  rewrite R, <- !chart_points_ok_iff, <- summary_table_ok_iff.
  rewrite <- generate_sfd_plot_ok_iff, <- generate_bmd_plot_ok_iff.
  unfold build_document. split.
  - intros [doc H].
    destruct (summary_table df) as [t|]; [|discriminate H].
    destruct (generate_sfd_plot df) as [s|]; [|discriminate H].
    destruct (generate_bmd_plot df) as [b|]; [|discriminate H].
    repeat split; eexists; reflexivity.
  - intros [[[s ->] [b ->]] [t ->]]. eexists; reflexivity.
Qed.

Lemma build_succeeds_iff_witness :
  exists doc,
    build_document
      (with_rows beam3 [[SInt 0; SFloat S754_nan; SInt 0];
                        [SStr "mid span"; SInt 10; SStr "n/a"]])
      empty_world = Ok doc.
Proof.
  apply (build_succeeds_iff _ empty_world). split.
  - repeat constructor; eexists _, _, _; reflexivity.
  - repeat constructor. eexists _, _, _. repeat split.
Defined.

(** X7.  The build can only raise a [KeyError] for one of the three
    labels it reads, or the [ValueError] of formatting text with
    ['.2f'/'.1f']; it raises nothing else. *)
Theorem build_raises_only (df : DataFrame) (w : World) (e : exn) :
  build_document df w = Raise e ->
  e = KeyError "X" \/ e = KeyError "Shear force" \/
  e = KeyError "Bending Moment" \/ e = format_error.
Proof.
  unfold build_document. rewrite summary_table_stored.
  destruct (mapM summary_of_cells (every_other (three_columns_of df)))
    as [body|e'] eqn:S; cbn [bind].
  - rewrite generate_sfd_plot_points.
    destruct (chart_points "Shear force" df) as [ps|e'] eqn:C1; cbn [bind].
    + rewrite generate_bmd_plot_points.
      destruct (chart_points "Bending Moment" df) as [pm|e''] eqn:C2; cbn [bind];
        [discriminate|].
      intros [= <-]. destruct (chart_points_raises _ _ _ C2); tauto.
    + intros [= <-]. destruct (chart_points_raises _ _ _ C1); tauto.
  - intros [= <-]. apply mapM_raise_in in S as (t & Hin & H).
    apply every_other_In in Hin. unfold three_columns_of in Hin.
    apply in_map_iff in Hin as (cells & <- & _).
    apply summary_of_cells_raises in H. unfold read_cells in H. cbn [fst snd] in H.
    destruct H as [H|[H|[H|H]]]; [tauto| | |];
      apply getitem_raises_key in H; tauto.
Qed.

Lemma build_raises_only_witness :
  build_document text_in_x empty_world = Raise format_error /\
  (format_error = KeyError "X" \/ format_error = KeyError "Shear force" \/
   format_error = KeyError "Bending Moment" \/ format_error = format_error).
Proof.
  split; [reflexivity|].
  apply (build_raises_only text_in_x empty_world). reflexivity.
Defined.

(** X8.  A table that has a row but no [X] column fails with
    [KeyError 'X'] in the build and in each chart generator: [X] is the
    first look-up on the first row everywhere. *)
Theorem missing_position_column (df : DataFrame) (w : World) :
  rows df <> [] -> ~ In "X" (labels df) ->
  build_document df w = Raise (KeyError "X") /\
  generate_sfd_plot df = Raise (KeyError "X") /\
  generate_bmd_plot df = Raise (KeyError "X").
Proof.
  intros NE A. destruct (rows df) as [|cells rest] eqn:R; [now contradiction NE|].
  assert (C : forall key, chart_points key df = Raise (KeyError "X")).
  { intros key. rewrite chart_points_stored, R. cbn [mapM].
    now rewrite (getitem_absent _ cells "X" A). }
  split; [|split].
  - unfold build_document.
    rewrite (summary_table_first_row df cells rest (KeyError "X") R); [reflexivity|].
    unfold read_cells, summary_of_cells.
    now rewrite (getitem_absent _ cells "X" A).
  - now rewrite generate_sfd_plot_points, C.
  - now rewrite generate_bmd_plot_points, C.
Qed.

Lemma missing_position_column_witness :
  generate_sfd_plot
    {| columns := [("Shear force", Int64)]; rows := [[SInt 3]] |} =
  Raise (KeyError "X").
Proof.
  apply (missing_position_column
           {| columns := [("Shear force", Int64)]; rows := [[SInt 3]] |}
           empty_world).
  - discriminate.
  - cbn. intuition discriminate.
Defined.

(** X9.  A chart generator needs only [X] and its own column: it returns
    a chart exactly when every row has both, whatever the cells hold
    (text and [nan] are written out as they are), and otherwise raises
    the [KeyError] of [X] or of its own column.  The shear chart never
    needs [Bending Moment], nor the moment chart [Shear force]. *)
Theorem charts_need_two_columns (df : DataFrame) :
  ((exists txt, generate_sfd_plot df = Ok txt) <->
   Forall (row_has df "Shear force") (rows df)) /\
  ((exists txt, generate_bmd_plot df = Ok txt) <->
   Forall (row_has df "Bending Moment") (rows df)) /\
  (forall e, generate_sfd_plot df = Raise e ->
             e = KeyError "X" \/ e = KeyError "Shear force") /\
  (forall e, generate_bmd_plot df = Raise e ->
             e = KeyError "X" \/ e = KeyError "Bending Moment").
Proof.
  split; [|split; [|split]].
  - now rewrite generate_sfd_plot_ok_iff, chart_points_ok_iff.
  - now rewrite generate_bmd_plot_ok_iff, chart_points_ok_iff.
  - intros e. rewrite generate_sfd_plot_points.
    destruct (chart_points "Shear force" df) as [p|e'] eqn:C; [discriminate|].
    intros [= <-]. exact (chart_points_raises _ _ _ C).
  - intros e. rewrite generate_bmd_plot_points.
    destruct (chart_points "Bending Moment" df) as [p|e'] eqn:C; [discriminate|].
    intros [= <-]. exact (chart_points_raises _ _ _ C).
Qed.

Lemma charts_need_two_columns_witness :
  exists txt,
    generate_sfd_plot
      {| columns := [("X", Object); ("Shear force", Int64)];
         rows := [[SStr "left"; SInt 3]] |} = Ok txt.
Proof.
  apply (charts_need_two_columns
           {| columns := [("X", Object); ("Shear force", Int64)];
              rows := [[SStr "left"; SInt 3]] |}).
  repeat constructor. eexists _, _. split; reflexivity.
Defined.

(** X10.  A table without rows builds, whatever its columns are: the
    summary table is its header and rule, and both charts have an empty
    coordinate list. *)
Theorem empty_table_builds (df : DataFrame) (w : World) :
  rows df = [] ->
  build_document df w =
  Ok (assemble w
        (Tabular "p{3cm} p{3cm} p{3cm}" row_height_1_4 [table_header; HLine])
        (sfd_head ++ plot_tail) (bmd_head ++ plot_tail)).
Proof.
  intros R. unfold build_document, summary_table, generate_sfd_plot,
    generate_bmd_plot, iterrows, iloc_every_other. cbn [rows]. rewrite R.
  reflexivity.
Qed.

Lemma empty_table_builds_witness :
  exists doc, build_document (with_rows no_shear []) empty_world = Ok doc.
Proof.
  eexists. apply (empty_table_builds (with_rows no_shear []) empty_world).
  reflexivity.
Defined.

(** ** Growing the table *)

Lemma concat_empty_app (l1 l2 : list string) :
  String.concat "" (l1 ++ l2) = String.concat "" l1 ++ String.concat "" l2.
Proof.
  assert (C : forall a l, String.concat "" (a :: l) = a ++ String.concat "" l).
  { intros a [|b l]; cbn [String.concat]; [|reflexivity].
    induction a as [|c a IH]; [reflexivity|]. cbn [append]. now rewrite <- IH. }
  induction l1 as [|a l1 IH]; [reflexivity|].
  rewrite <- app_comm_cons, !C, IH.
  clear. induction a as [|c a IH]; [reflexivity|]. cbn [append]. now rewrite IH.
Qed.

Lemma coords_text_app (p1 p2 : list (scalar * scalar)) :
  coords_text (p1 ++ p2) = coords_text p1 ++ coords_text p2.
Proof. unfold coords_text. now rewrite map_app, concat_empty_app. Qed.

Lemma chart_points_app (key : string) (df : DataFrame) (r1 r2 : list (list scalar)) :
  chart_points key (with_rows df (r1 ++ r2)) =
  (p1 <- chart_points key (with_rows df r1) ;;
   p2 <- chart_points key (with_rows df r2) ;; Ok (p1 ++ p2)%list).
Proof.
  unfold chart_points, iterrows, with_rows, labels, common_dtype.
  cbn [rows columns]. now rewrite map_app, mapM_app.
Qed.

Lemma every_other_app_even {A : Type} (l1 l2 : list A) :
  Nat.even (List.length l1) = true ->
  every_other (l1 ++ l2) = (every_other l1 ++ every_other l2)%list.
Proof.
  induction l1 as [| a | a b l IH] using list_pair_ind; intros E.
  - reflexivity.
  - discriminate E.
  - cbn [app every_other]. f_equal. apply IH. exact E.
Qed.

Lemma every_other_app_odd {A : Type} (l1 l2 : list A) :
  Nat.even (List.length l1) = false ->
  every_other (l1 ++ l2) = (every_other l1 ++ every_other (List.tl l2))%list.
Proof.
  induction l1 as [| a | a b l IH] using list_pair_ind; intros E.
  - discriminate E.
  - destruct l2; reflexivity.
  - cbn [app every_other]. f_equal. apply IH. exact E.
Qed.


Lemma summary_body_rows (df : DataFrame) (rs : list (list scalar)) :
  summary_body (with_rows df rs) =
  mapM (fun cells =>
          summary_row (combine (labels df) (map (astype (common_dtype df)) cells)))
       (every_other rs).
Proof.
  unfold summary_body, iterrows, iloc_every_other, with_rows, labels, common_dtype.
  cbn [rows columns]. now rewrite mapM_map.
Qed.

(** X12.  The summary table samples by position: rows added after an even
    number of rows contribute their own rows 0, 2, 4, ...; added after an
    odd number of rows they contribute their rows 1, 3, 5, ...  The
    summary rows of the rows before them stay as they were. *)
Theorem summary_of_appended_rows (df : DataFrame) (r1 r2 : list (list scalar)) :
  summary_body (with_rows df (r1 ++ r2)) =
  (b1 <- summary_body (with_rows df r1) ;;
   b2 <- summary_body (with_rows df (if Nat.even (List.length r1)
                                     then r2 else List.tl r2)) ;;
   Ok (b1 ++ b2)%list).
Proof.
  rewrite !summary_body_rows.
  destruct (Nat.even (List.length r1)) eqn:E.
  - now rewrite (every_other_app_even r1 r2 E), mapM_app.
  - now rewrite (every_other_app_odd r1 r2 E), mapM_app.
Qed.

(** ** What the table prints *)

Lemma zeros_snoc (p : nat) : zeros p ++ "0" = zeros (S p).
Proof. induction p as [|p IH]; [reflexivity|]. cbn [zeros append]. now rewrite IH. Qed.

Lemma low_digits_of_multiple (p : nat) (n : Z) :
  low_digits p (n * 10 ^ Z.of_nat p) = zeros p.
Proof.
  revert n. induction p as [|p IH]; intros n; [reflexivity|].
  cbn [low_digits]. rewrite Nat2Z.inj_succ, Z.pow_succ_r by lia.
  replace (n * (10 * 10 ^ Z.of_nat p)) with (n * 10 ^ Z.of_nat p * 10) by lia.
  rewrite Z.div_mul, Z.mod_mul, IH by lia. apply zeros_snoc.
Qed.

Lemma fixed_digits_of_multiple (p : nat) (n : Z) :
  fixed_digits (S p) (n * 10 ^ Z.of_nat (S p)) = nat_str n ++ "." ++ zeros (S p).
Proof.
  unfold fixed_digits. rewrite Z.div_mul by (apply Z.pow_nonzero; lia).
  now rewrite low_digits_of_multiple.
Qed.

Lemma scaled_round_exact (p : nat) (m m' : positive) (e' : Z) :
  e' <= 0 -> Z.pos m' = Z.pos m * 2 ^ (- e') ->
  scaled_round p m' e' = Z.pos m * 10 ^ Z.of_nat p.
Proof.
  intros E V. unfold scaled_round. rewrite V.
  destruct (0 <=? e') eqn:L.
  - apply Z.leb_le in L. replace e' with 0 by lia. cbn [Z.opp Z.pow]. lia.
  - assert (P : 0 < 2 ^ (- e')) by (apply Z.pow_pos_nonneg; lia).
    unfold div_half_even.
    replace (Z.pos m * 2 ^ (- e') * 10 ^ Z.of_nat p)
      with (Z.pos m * 10 ^ Z.of_nat p * 2 ^ (- e')) by lia.
    rewrite Z.div_mul, Z.mod_mul by lia.
    destruct (2 * 0 ?= 2 ^ (- e')) eqn:C; try reflexivity.
    + apply Z.compare_eq in C. lia.
    + rewrite Z.compare_gt_iff in C. lia.
Qed.

Lemma format_fixed_small_int (p : nat) (z : Z) :
  Z.abs z < 2 ^ 53 ->
  format_fixed (S p) (SInt z) = Ok (int_str z ++ "." ++ zeros (S p)).
Proof.
  intros H. unfold format_fixed, float_of_int, binary_normalize, int_str. f_equal.
  destruct z as [|m|m].
  - cbn [float_format_fixed Z.ltb Z.compare append].
    change (fixed_digits (S p) 0)
      with (fixed_digits (S p) (0 * 10 ^ Z.of_nat (S p))).
    apply fixed_digits_of_multiple.
  - destruct (binary_round_small false m) as (m' & e' & -> & E & V); [lia|].
    cbn [float_format_fixed Z.ltb Z.compare append].
    rewrite (scaled_round_exact _ m m' e' E V). apply fixed_digits_of_multiple.
  - destruct (binary_round_small true m) as (m' & e' & -> & E & V); [lia|].
    cbn [float_format_fixed Z.ltb Z.compare Z.opp].
    rewrite (scaled_round_exact _ m m' e' E V).
    now rewrite fixed_digits_of_multiple.
Qed.

(** X13.  A row of integers below [2^53] in magnitude is printed without
    any rounding: the position as the integer followed by [.00], the shear
    and the moment as the integer followed by [.0]. *)
Theorem integer_row_prints_exactly (r : Series) (x v m : Z) :
  getitem r "X" = Ok (SInt x) ->
  getitem r "Shear force" = Ok (SInt v) ->
  getitem r "Bending Moment" = Ok (SInt m) ->
  Z.abs x < 2 ^ 53 -> Z.abs v < 2 ^ 53 -> Z.abs m < 2 ^ 53 ->
  summary_row r = Ok [int_str x ++ ".00"; int_str v ++ ".0"; int_str m ++ ".0"].
Proof.
  intros X V M Bx Bv Bm. unfold summary_row. rewrite X, V, M. cbn [bind].
  rewrite (format_fixed_small_int 1 x Bx), (format_fixed_small_int 0 v Bv),
          (format_fixed_small_int 0 m Bm).
  reflexivity.
Qed.

Lemma integer_row_prints_exactly_witness :
  summary_row [("X", SInt 6); ("Shear force", SInt 10); ("Bending Moment", SInt (-5))] =
  Ok ["6.00"; "10.0"; "-5.0"].
Proof.
  apply (integer_row_prints_exactly _ 6 10 (-5)); try reflexivity;
    vm_compute; reflexivity.
Defined.

(** *** Columns that hold no integer *)

Lemma point_of_cells_without_int (d d' : dtype) (rx rv : result scalar) :
  match rx with Ok c => negb (is_int c) | Raise _ => true end = true ->
  match rv with Ok c => negb (is_int c) | Raise _ => true end = true ->
  point_of_cells d rx rv = point_of_cells d' rx rv.
Proof.
  assert (A : forall c, negb (is_int c) = true -> astype d c = astype d' c).
  { intros [z|f|s]; [discriminate| |]; intros _; now destruct d, d'. }
  unfold point_of_cells. destruct rx as [x|]; [|reflexivity].
  destruct rv as [v|]; [|reflexivity].
  intros Hx Hv. cbn [bind]. now rewrite (A x Hx), (A v Hv).
Qed.

(** X14.  When the three columns hold no integer cell (floats, as a
    spreadsheet of measured values gives), the other columns of the table
    have no effect at all: two tables that agree on the three columns give
    the same document and the same chart texts, whatever else they hold. *)
Theorem float_columns_ignore_other_columns (df1 df2 : DataFrame) (w : World) :
  three_columns_of df1 = three_columns_of df2 ->
  forallb row_without_int (three_columns_of df1) = true ->
  build_document df1 w = build_document df2 w /\
  generate_sfd_plot df1 = generate_sfd_plot df2 /\
  generate_bmd_plot df1 = generate_bmd_plot df2.
Proof.
  intros T N.
  assert (C : forall key, In key ["Shear force"; "Bending Moment"] ->
                chart_points key df1 = chart_points key df2).
  { intros key K. rewrite !chart_points_three_columns by exact K.
    rewrite <- T. apply mapM_ext_in. intros [[rx rv] rm] Hin.
    rewrite forallb_forall in N. specialize (N _ Hin). cbn in N.
    apply andb_prop in N as [N Nm]. apply andb_prop in N as [Nx Nv].
    destruct (String.eqb key "Shear force");
      now apply point_of_cells_without_int. }
  assert (S : generate_sfd_plot df1 = generate_sfd_plot df2)
    by (rewrite !generate_sfd_plot_points, C by (cbn; tauto); reflexivity).
  assert (B : generate_bmd_plot df1 = generate_bmd_plot df2)
    by (rewrite !generate_bmd_plot_points, C by (cbn; tauto); reflexivity).
  split; [|now split].
  unfold build_document. rewrite !summary_table_stored, T, S, B. reflexivity.
Qed.

Lemma float_columns_ignore_other_columns_witness :
  generate_sfd_plot beam3_float =
  generate_sfd_plot
    {| columns := columns beam3_float ++ [("Node", Int64)];
       rows := [[SFloat f0; SFloat f0; SFloat f0; SInt 1];
                [SFloat f6; SFloat f10; SFloat fm5; SInt 2];
                [SFloat f12; SFloat f0; SFloat f0; SInt 3]] |}.
Proof.
  apply (float_columns_ignore_other_columns beam3_float _ empty_world);
    reflexivity.
Defined.

(** *** The number a printed text denotes *)

Lemma digits_value_app (s t : string) (acc : Z) :
  digits_value (s ++ t) acc = digits_value t (digits_value s acc).
Proof.
  revert acc. induction s as [|c s IH]; intros acc; [reflexivity|].
  cbn [append digits_value]. apply IH.
Qed.

Lemma digit_char_value (d : Z) :
  0 <= d < 10 -> Z.of_nat (nat_of_ascii (digit_char d)) - 48 = d.
Proof.
  intros H.
  assert (C : d = 0 \/ d = 1 \/ d = 2 \/ d = 3 \/ d = 4 \/
              d = 5 \/ d = 6 \/ d = 7 \/ d = 8 \/ d = 9) by lia.
  repeat (destruct C as [->|C]; [reflexivity|]). now subst.
Qed.

Lemma digits_value_low_digits (p : nat) (n acc : Z) :
  digits_value (low_digits p n) acc = acc * 10 ^ Z.of_nat p + n mod 10 ^ Z.of_nat p.
Proof.
  revert n acc. induction p as [|p IH]; intros n acc.
  - cbn [low_digits digits_value Z.of_nat Z.pow]. rewrite Z.mod_1_r. lia.
  - cbn [low_digits]. rewrite digits_value_app, IH. cbn [digits_value].
    rewrite digit_char_value by (apply Z.mod_pos_bound; lia).
    rewrite Nat2Z.inj_succ, Z.pow_succ_r by lia.
    rewrite (Z.rem_mul_r n 10 (10 ^ Z.of_nat p)) by
      (try lia; apply Z.pow_pos_nonneg; lia).
    lia.
Qed.

Lemma uint_digits_value (d : Decimal.uint) (acc : Z) :
  digits_value (DecimalString.NilEmpty.string_of_uint d) acc =
  acc * 10 ^ Z.of_N (DecimalPos.Unsigned.usize d) + Z.of_N (Pos.of_uint d).
Proof.
  revert acc.
  induction d; intros acc;
    [cbn; lia | ..];
    cbn [DecimalString.NilEmpty.string_of_uint digits_value];
    rewrite IHd, (DecimalPos.Unsigned.of_uint_alt (_ d));
    unfold Decimal.rev; cbn [Decimal.revapp];
    rewrite DecimalPos.Unsigned.of_lu_revapp;
    fold (Decimal.rev d);
    rewrite <- DecimalPos.Unsigned.of_uint_alt;
    cbn [DecimalPos.Unsigned.of_lu DecimalPos.Unsigned.usize];
    repeat (rewrite N2Z.inj_add || rewrite N2Z.inj_mul);
    rewrite N2Z.inj_pow, N2Z.inj_succ;
    rewrite Z.pow_succ_r by apply N2Z.is_nonneg;
    match goal with
    | |- context [Z.of_nat (nat_of_ascii ?c)] =>
        let v := eval cbv in (Z.of_nat (nat_of_ascii c)) in
        change (Z.of_nat (nat_of_ascii c)) with v
    end;
    cbn [Z.of_N];
    generalize (10 ^ Z.of_N (DecimalPos.Unsigned.usize d));
    generalize (Z.of_N (Pos.of_uint d)); intros; lia.
Qed.

Lemma digits_value_nat_str (n : Z) : 0 <= n -> digits_value (nat_str n) 0 = n.
Proof.
  intros H. unfold nat_str, DecimalString.NilZero.string_of_uint.
  pose proof (DecimalN.Unsigned.of_to (Z.to_N n)) as O. unfold N.of_uint in O.
  destruct (N.to_uint (Z.to_N n)) eqn:E;
    [cbn in O; cbn; lia | ..];
    cbv iota beta; rewrite uint_digits_value, O, Z2N.id by lia; lia.
Qed.

Lemma drop_point_digits (s : string) : all_digits s = true -> drop_point s = s.
Proof.
  induction s as [|c s IH]; [reflexivity|]. cbn [all_digits drop_point].
  intros H. apply andb_prop in H as [D H].
  destruct (Ascii.eqb_spec c "."%char) as [->|_]; [discriminate D|].
  now rewrite IH.
Qed.

Lemma drop_point_app (s t : string) :
  drop_point (s ++ t) = drop_point s ++ drop_point t.
Proof.
  induction s as [|c s IH]; [reflexivity|]. cbn [append drop_point].
  destruct (Ascii.eqb c "."); now rewrite IH.
Qed.

Lemma fixed_digits_units (p : nat) (n : Z) :
  0 <= n -> digits_value (drop_point (fixed_digits (S p) n)) 0 = n.
Proof.
  intros H. unfold fixed_digits.
  rewrite drop_point_app, (drop_point_digits _ (nat_str_all_digits _)).
  cbn [append drop_point Ascii.eqb Bool.eqb].
  rewrite (drop_point_digits _ (low_digits_all_digits _ _)).
  rewrite digits_value_app, digits_value_nat_str, digits_value_low_digits
    by (apply Z.div_pos; [lia | apply Z.pow_pos_nonneg; lia]).
  pose proof (Z.div_mod n (10 ^ Z.of_nat (S p))
                ltac:(apply Z.pow_nonzero; lia)). lia.
Qed.

Lemma text_units_fixed_digits (p : nat) (n : Z) (neg : bool) :
  0 <= n ->
  text_units ((if neg then "-" else "") ++ fixed_digits (S p) n) =
  if neg then - n else n.
Proof.
  intros H. destruct neg.
  - cbn [append text_units]. now rewrite fixed_digits_units.
  - cbn [append]. rewrite <- (fixed_digits_units p n H) at 2.
    unfold text_units.
    pose proof (nat_str_all_digits (n / 10 ^ Z.of_nat (S p))) as D.
    pose proof (nat_str_nonempty (n / 10 ^ Z.of_nat (S p))) as NE.
    unfold fixed_digits.
    destruct (nat_str (n / 10 ^ Z.of_nat (S p))) as [|c s]; [now contradiction NE|].
    cbn [append]. cbn [all_digits] in D. apply andb_prop in D as [D _].
    destruct (Ascii.eqb_spec c "-"%char) as [->|N]; [discriminate D|].
    destruct c as [[|] [|] [|] [|] [|] [|] [|] [|]]; try reflexivity.
    now contradiction N.
Qed.

Lemma scaled_round_nonneg (p : nat) (m : positive) (e : Z) :
  0 <= scaled_round p m e.
Proof.
  unfold scaled_round.
  assert (P : 0 < 10 ^ Z.of_nat p) by (apply Z.pow_pos_nonneg; lia).
  destruct (0 <=? e) eqn:L.
  - apply Z.leb_le in L. assert (0 < 2 ^ e) by (apply Z.pow_pos_nonneg; lia). nia.
  - apply Z.leb_gt in L.
    assert (Q : 0 < 2 ^ (- e)) by (apply Z.pow_pos_nonneg; lia).
    unfold div_half_even.
    assert (0 <= Z.pos m * 10 ^ Z.of_nat p / 2 ^ (- e))
      by (apply Z.div_pos; nia).
    destruct (2 * _ ?= _); [destruct (Z.even _)| |]; lia.
Qed.

(** ** Sizes of what is built *)




(** ** The coordinate list, read back *)








(** *** The text of a number holds no delimiter *)












(** ** The charts of a valid table *)






(** ** Where a bad input fails *)

Lemma build_document_ok_rows (df : DataFrame) (w : World) :
  (exists doc, build_document df w = Ok doc) <->
  Forall (row_readable df) (rows df) /\
  Forall (row_printable df) (every_other (rows df)).
Proof.
  assert (R : Forall (row_readable df) (rows df) <->
              Forall (row_has df "Shear force") (rows df) /\
              Forall (row_has df "Bending Moment") (rows df)).
  { rewrite !Forall_forall. split.
    - intros H. split; intros c Hc; now apply row_readable_iff, H.
    - intros [H1 H2] c Hc. apply row_readable_iff. split; auto. }
  rewrite R, <- !chart_points_ok_iff, <- summary_table_ok_iff.
  rewrite <- generate_sfd_plot_ok_iff, <- generate_bmd_plot_ok_iff.
  unfold build_document. split.
  - intros [doc H].
    destruct (summary_table df) as [t|]; [|discriminate H].
    destruct (generate_sfd_plot df) as [s|]; [|discriminate H].
    destruct (generate_bmd_plot df) as [b|]; [|discriminate H].
    repeat split; eexists; reflexivity.
  - intros [[[s ->] [b ->]] [t ->]]. eexists; reflexivity.
Qed.

Lemma build_document_raise_kind (df : DataFrame) (w : World) (e : exn) :
  build_document df w = Raise e ->
  In e [KeyError "X"; KeyError "Shear force"; KeyError "Bending Moment";
        format_error].
Proof.
  unfold build_document. rewrite summary_table_stored.
  destruct (mapM summary_of_cells (every_other (three_columns_of df)))
    as [body|e'] eqn:S; cbn [bind].
  - rewrite generate_sfd_plot_points.
    destruct (chart_points "Shear force" df) as [ps|e'] eqn:C1; cbn [bind].
    + rewrite generate_bmd_plot_points.
      destruct (chart_points "Bending Moment" df) as [pm|e''] eqn:C2; cbn [bind];
        [discriminate|].
      intros [= <-]. destruct (chart_points_raises _ _ _ C2) as [->| ->]; cbn; tauto.
    + intros [= <-]. destruct (chart_points_raises _ _ _ C1) as [->| ->]; cbn; tauto.
  - intros [= <-]. apply mapM_raise_in in S as (t & Hin & H).
    apply every_other_In in Hin. unfold three_columns_of in Hin.
    apply in_map_iff in Hin as (cells & <- & _).
    apply summary_of_cells_raises in H. unfold read_cells in H. cbn [fst snd] in H.
    destruct H as [->|[H|[H|H]]]; [cbn; tauto| | |];
      apply getitem_raises_key in H; subst e'; cbn; tauto.
Qed.

Lemma read_cells_required (df : DataFrame) (cells : list scalar) (key : string)
    (x v m : scalar) :
  read_cells df cells = (Ok x, Ok v, Ok m) -> In key required ->
  getitem (combine (labels df) cells) key = Ok x \/
  getitem (combine (labels df) cells) key = Ok v \/
  getitem (combine (labels df) cells) key = Ok m.
Proof.
  unfold read_cells. intros [= X V M] [<-|[<-|[<-|[]]]]; tauto.
Qed.

(** C3, as amended.  A missing file fails in the load step with
    [FileNotFoundError].  The load step checks no column and no cell:
    every workbook is loaded.  A table that lacks a required column and has
    a row fails in the build step, with a [KeyError] for one of the three
    labels or the [ValueError] of a text cell formatted with ['.2f'/'.1f']
    (without [Shear force]: [KeyError 'X'], [KeyError 'Shear force'] or
    that [ValueError]); with no rows it builds without error.  Text in a
    required column of a row of even index fails in the build step in the
    same way, and with exactly that [ValueError] when it is the [X] cell of
    the first row.  Text in rows of odd index raises nothing: the build
    succeeds whenever every row has the three columns and no row of even
    index holds text in them. *)
Theorem input_errors_by_step (w : World) :
  (fs w "beam_data.xlsx" = None ->
   load_table w = Raise (FileNotFoundError "beam_data.xlsx")) /\
  (forall df, fs w "beam_data.xlsx" = Some (Workbook df) ->
     load_table w = Ok df /\
     (forall key, In key required -> ~ In key (labels df) ->
        (rows df <> [] ->
           exists e, build_document df w = Raise e /\
             In e [KeyError "X"; KeyError "Shear force";
                   KeyError "Bending Moment"; format_error]) /\
        (rows df = [] -> exists doc, build_document df w = Ok doc)) /\
     (~ In "Shear force" (labels df) -> rows df <> [] ->
        exists e, build_document df w = Raise e /\
          (e = KeyError "X" \/ e = KeyError "Shear force" \/ e = format_error)) /\
     (forall i cells key s,
        Nat.even i = true -> nth_error (rows df) i = Some cells ->
        In key required ->
        getitem (combine (labels df) cells) key = Ok (SStr s) ->
        exists e, build_document df w = Raise e /\
          In e [KeyError "X"; KeyError "Shear force";
                KeyError "Bending Moment"; format_error]) /\
     (forall cells rest s,
        rows df = cells :: rest ->
        getitem (combine (labels df) cells) "X" = Ok (SStr s) ->
        build_document df w = Raise format_error) /\
     (Forall (row_readable df) (rows df) ->
      Forall (row_printable df) (every_other (rows df)) ->
      exists doc, build_document df w = Ok doc)).
Proof.
  unfold load_table, read_excel. split; [now intros ->|].
  intros df ->. split; [reflexivity|].
  assert (Fail : forall P : Prop,
            ((exists doc, build_document df w = Ok doc) -> P -> False) -> P ->
            exists e, build_document df w = Raise e /\
              In e [KeyError "X"; KeyError "Shear force";
                    KeyError "Bending Moment"; format_error]).
  { intros P H HP. destruct (build_document df w) as [doc|e] eqn:B.
    - exfalso. apply (H (ex_intro _ doc eq_refl) HP).
    - exists e. split; [reflexivity|]. exact (build_document_raise_kind _ _ _ B). }
  split; [|split; [|split; [|split]]].
  - intros key K A. split; [|apply build_document_no_rows].
    intros NE. apply (Fail True); [|exact I]. intros Hok _.
    apply build_document_ok_rows in Hok as [Hr _].
    destruct (rows df) as [|cells rest]; [now contradiction NE|].
    inversion Hr as [|? ? (x & v & m & R) _]; subst.
    pose proof (getitem_absent (labels df) cells key A) as G.
    destruct (read_cells_required _ _ _ _ _ _ R K) as [H|[H|H]];
      rewrite H in G; discriminate G.
  - intros A NE. destruct (rows df) as [|cells rest] eqn:R; [now contradiction NE|].
    assert (F : exists e, summary_of_cells (read_cells df cells) = Raise e /\
                  (e = KeyError "X" \/ e = KeyError "Shear force" \/
                   e = format_error)).
    { unfold read_cells, summary_of_cells.
      rewrite (getitem_absent _ cells "Shear force" A).
      destruct (getitem (combine (labels df) cells) "X") as [x|e] eqn:X.
      - cbn [bind]. destruct x as [z|f|s]; cbn [format_fixed bind];
          eexists; (split; [reflexivity|]); tauto.
      - cbn [bind]. exists e. split; [reflexivity|]. left.
        exact (getitem_raises_key _ _ _ X). }
    destruct F as (e & F & K). exists e. split; [|exact K].
    unfold build_document. now rewrite (summary_table_first_row df cells rest e R F).
  - intros i cells key s E N K G. apply (Fail True); [|exact I]. intros Hok _.
    apply build_document_ok_rows in Hok as [_ Hp].
    apply Nat.even_spec in E as [j ->].
    rewrite <- every_other_nth_error in N. apply nth_error_In in N.
    rewrite Forall_forall in Hp.
    destruct (Hp _ N) as (x & v & m & R & Tx & Tv & Tm).
    destruct (read_cells_required _ _ _ _ _ _ R K) as [H|[H|H]];
      rewrite H in G; injection G as ->; discriminate.
  - intros cells rest s R X. unfold build_document.
    erewrite (summary_table_first_row df cells rest _ R); [reflexivity|].
    unfold read_cells, summary_of_cells. rewrite X. reflexivity.
  - intros Hr Hp. apply build_document_ok_rows. now split.
Qed.

Lemma input_errors_by_step_witness :
  load_table empty_world = Raise (FileNotFoundError "beam_data.xlsx") /\
  load_table (world_with no_shear) = Ok no_shear /\
  (exists e, build_document no_shear (world_with no_shear) = Raise e) /\
  build_document text_in_x (world_with text_in_x) = Raise format_error /\
  (exists doc,
     build_document
       (with_rows beam3 [[SInt 0; SInt 0; SInt 0];
                         [SStr "mid span"; SInt 10; SStr "n/a"]])
       (world_with
          (with_rows beam3 [[SInt 0; SInt 0; SInt 0];
                            [SStr "mid span"; SInt 10; SStr "n/a"]])) = Ok doc).
Proof.
  split; [apply (input_errors_by_step empty_world); reflexivity|].
  destruct (input_errors_by_step (world_with no_shear)) as [_ H].
  destruct (H no_shear eq_refl) as (L & B & _).
  split; [exact L|]. split; [|split].
  - assert (A : ~ In "Shear force" (labels no_shear)) by (cbn; intuition discriminate).
    assert (K : In "Shear force" required) by (cbn; tauto).
    destruct (B "Shear force" K A) as [B1 _].
    destruct B1 as (e & E & _); [discriminate|]. now exists e.
  - destruct (input_errors_by_step (world_with text_in_x)) as [_ H'].
    destruct (H' text_in_x eq_refl) as (_ & _ & _ & _ & T & _).
    exact (T _ _ _ eq_refl eq_refl).
  - destruct (input_errors_by_step
                (world_with
                   (with_rows beam3 [[SInt 0; SInt 0; SInt 0];
                                     [SStr "mid span"; SInt 10; SStr "n/a"]])))
      as [_ H'].
    destruct (H' _ eq_refl) as (_ & _ & _ & _ & _ & T).
    apply T.
    + repeat constructor; eexists _, _, _; reflexivity.
    + repeat constructor. eexists _, _, _. repeat split.
Defined.

(** ** A failing compilation, seen from the run *)

(** X3.  When the table loads and the document builds but the compilation
    fails, the run ends with the compiler's exception and leaves the
    markup file behind; the first two progress lines were printed, in
    order, and whatever was printed after them, the success line was
    not. *)
Theorem run_compile_failure (dumps : Document -> string) (w : World)
    (df : DataFrame) (doc : Document) :
  load_table w = Ok df ->
  build_document df w = Ok doc ->
  compile_fails dumps doc w ->
  (fst (generate_beam_report dumps w) = Raise (CalledProcessError "pdflatex") \/
   fst (generate_beam_report dumps w) =
     Raise (CompilerError "No LaTex compiler was found")) /\
  fs (snd (generate_beam_report dumps w)) tex_path = Some (Text (dumps doc)) /\
  exists after,
    stdout (snd (generate_beam_report dumps w)) =
      (stdout w ++ [line_reading; line_generating] ++ after)%list /\
    ~ In line_success after.
Proof.
  intros L B C. rewrite run_unfold, L, B.
  unfold compile_fails in C. unfold render, generate_pdf. cbn [print compilers].
  destruct (compilers w "pdflatex") as [run|].
  - rewrite C. cbn [fst snd stdout fs write_file print].
    split; [now left|]. split; [reflexivity|].
    exists []. split; [now rewrite <- app_assoc | intros []].
  - cbn [fst snd stdout fs write_file print].
    split; [now right|]. split; [reflexivity|].
    exists []. split; [now rewrite <- app_assoc | intros []].
Qed.

Lemma run_compile_failure_witness :
  fs (snd (generate_beam_report plain_dumps (world_with beam3))) tex_path <> None /\
  (fst (generate_beam_report plain_dumps (world_with beam3)) =
     Raise (CalledProcessError "pdflatex") \/
   fst (generate_beam_report plain_dumps (world_with beam3)) =
     Raise (CompilerError "No LaTex compiler was found")).
Proof.
  destruct (build_document beam3 (world_with beam3)) as [doc|e] eqn:B;
    [|vm_compute in B; discriminate B].
  destruct (run_compile_failure plain_dumps (world_with beam3) beam3 doc
              eq_refl B I) as (R & T & _).
  split; [rewrite T; discriminate | exact R].
Defined.

(** ** Rows added to a table *)

Lemma chart_points_frame (key : string) (df df' : DataFrame) :
  labels df = labels df' -> common_dtype df = common_dtype df' ->
  rows df = rows df' ->
  chart_points key df = chart_points key df'.
Proof.
  intros L D R. rewrite !chart_points_stored. now rewrite L, D, R.
Qed.

(** The dtype matters: a row with the position 0.5 added to a table of
    integers makes [X] a column of floats and the row block a block of
    floats, and the coordinates of the row before it change. *)
Example added_float_changes_earlier_points :
  generate_sfd_plot
    {| columns := three_columns; rows := [[SInt 0; SInt 0; SInt 0]] |} =
    Ok (sfd_head ++ "(0, 0) " ++ plot_tail) /\
  generate_sfd_plot
    {| columns := [("X", Float64); ("Shear force", Int64); ("Bending Moment", Int64)];
       rows := [[SFloat f0; SInt 0; SInt 0];
                [SFloat (S754_finite false 4503599627370496 (-53)); SInt 1; SInt 1]] |} =
    Ok (sfd_head ++ "(0.0, 0.0) " ++ "(0.5, 1.0) " ++ plot_tail).
Proof. split; vm_compute; reflexivity. Qed.

(** X11.  Rows added at the end of a table that do not change the dtype
    of its row block (they bring no first float into integer columns, no
    first text into numeric ones) add their points at the end of each
    chart and leave the coordinates before them as they were: the
    coordinate text of the longer table is that of the shorter table
    followed by that of the added rows. *)
Theorem chart_of_appended_rows (short long : DataFrame)
    (added : list (list scalar)) (s1 s2 m1 m2 : list (scalar * scalar)) :
  labels long = labels short ->
  common_dtype long = common_dtype short ->
  rows long = (rows short ++ added)%list ->
  chart_points "Shear force" short = Ok s1 ->
  chart_points "Shear force" (with_rows long added) = Ok s2 ->
  chart_points "Bending Moment" short = Ok m1 ->
  chart_points "Bending Moment" (with_rows long added) = Ok m2 ->
  generate_sfd_plot short = Ok (sfd_head ++ coords_text s1 ++ plot_tail) /\
  generate_sfd_plot long =
    Ok (sfd_head ++ (coords_text s1 ++ coords_text s2) ++ plot_tail) /\
  generate_bmd_plot short = Ok (bmd_head ++ coords_text m1 ++ plot_tail) /\
  generate_bmd_plot long =
    Ok (bmd_head ++ (coords_text m1 ++ coords_text m2) ++ plot_tail).
Proof.
  intros L D R S1 S2 M1 M2.
  assert (A : forall key,
            chart_points key long =
            (p1 <- chart_points key short ;;
             p2 <- chart_points key (with_rows long added) ;; Ok (p1 ++ p2)%list)).
  { intros key.
    rewrite (chart_points_frame key long (with_rows long (rows short ++ added)))
      by (try reflexivity; exact R).
    rewrite chart_points_app.
    now rewrite (chart_points_frame key (with_rows long (rows short)) short)
      by (try reflexivity; assumption). }
  rewrite !generate_sfd_plot_points, !generate_bmd_plot_points, !A.
  rewrite S1, S2, M1, M2. cbn [bind].
  fold (coords_text s1) (coords_text m1) (coords_text (s1 ++ s2))
       (coords_text (m1 ++ m2)).
  now rewrite !coords_text_app.
Qed.

Lemma chart_of_appended_rows_witness :
  generate_sfd_plot beam3 =
  Ok (sfd_head ++ ("(0, 0) " ++ "(6, 10) (12, 0) ") ++ plot_tail).
Proof.
  apply (chart_of_appended_rows
           (with_rows beam3 [[SInt 0; SInt 0; SInt 0]]) beam3
           [[SInt 6; SInt 10; SInt (-5)]; [SInt 12; SInt 0; SInt 0]]
           [(SInt 0, SInt 0)] [(SInt 6, SInt 10); (SInt 12, SInt 0)]
           [(SInt 0, SInt 0)] [(SInt 6, SInt (-5)); (SInt 12, SInt 0)]);
    reflexivity.
Defined.

(** ** Rounding in the summary table *)

Lemma div_half_even_tie (a b : Z) :
  0 < b -> Z.abs (2 * (div_half_even a b * b - a)) = b ->
  Z.even (div_half_even a b) = true.
Proof.
  intros Hb. unfold div_half_even.
  pose proof (Z.div_mod a b ltac:(lia)) as E.
  pose proof (Z.mod_pos_bound a b Hb) as R.
  destruct (2 * (a mod b) ?= b) eqn:C.
  - intros _. destruct (Z.even (a / b)) eqn:Q; [exact Q|].
    rewrite Z.add_1_r, Z.even_succ, <- Z.negb_even, Q. reflexivity.
  - rewrite Z.compare_lt_iff in C. intros H. nia.
  - rewrite Z.compare_gt_iff in C. intros H. nia.
Qed.

Lemma float_text_rounds_half_even (p : nat) (s : bool) (m : positive) (e : Z) :
  rounds_half_even (S p) s m e
    (text_units (float_format_fixed (S p) (S754_finite s m e))).
Proof.
  unfold rounds_half_even. cbn [float_format_fixed].
  rewrite (text_units_fixed_digits p _ s (scaled_round_nonneg (S p) m e)).
  assert (N : (if s then - (if s then - scaled_round (S p) m e
                            else scaled_round (S p) m e)
               else (if s then - scaled_round (S p) m e
                     else scaled_round (S p) m e)) = scaled_round (S p) m e)
    by (destruct s; lia).
  cbv zeta. rewrite N.
  split; [apply scaled_round_nonneg|].
  split; [apply scaled_round_nearest|].
  intros E. split; [now apply scaled_round_nearest|].
  unfold scaled_round. destruct (0 <=? e) eqn:L; [apply Z.leb_le in L; lia|].
  apply div_half_even_tie. apply Z.pow_pos_nonneg; lia.
Qed.

(** X15.  For a row of finite floats, line 76 writes into the summary
    table the position rounded to the nearest hundredth and the shear and
    the moment rounded to the nearest tenth, a tie going to the even last
    digit: each text, read as a count of units of its last digit, is the
    value rounded to the nearest integer of such units, ties to even. *)
Theorem summary_row_rounds_half_even (r : Series) (sx sv sm : bool)
    (mx mv mm : positive) (ex ev em : Z) :
  getitem r "X" = Ok (SFloat (S754_finite sx mx ex)) ->
  getitem r "Shear force" = Ok (SFloat (S754_finite sv mv ev)) ->
  getitem r "Bending Moment" = Ok (SFloat (S754_finite sm mm em)) ->
  exists tx tv tm,
    summary_row r = Ok [tx; tv; tm] /\
    rounds_half_even 2 sx mx ex (text_units tx) /\
    rounds_half_even 1 sv mv ev (text_units tv) /\
    rounds_half_even 1 sm mm em (text_units tm).
Proof.
  intros X V M. unfold summary_row. rewrite X, V, M. cbn [bind format_fixed].
  eexists _, _, _. split; [reflexivity|].
  split; [|split]; apply float_text_rounds_half_even.
Qed.

Lemma summary_row_rounds_half_even_witness :
  exists tx tv tm,
    summary_row
      [("X", SFloat (S754_finite false 4503599627370496 (-55)));
       ("Shear force", SFloat (S754_finite false 6023564501608038 (-51)));
       ("Bending Moment", SFloat f10)] = Ok [tx; tv; tm] /\
    rounds_half_even 2 false 4503599627370496 (-55) (text_units tx) /\
    tx = "0.12".
Proof.
  destruct (summary_row_rounds_half_even
              [("X", SFloat (S754_finite false 4503599627370496 (-55)));
               ("Shear force", SFloat (S754_finite false 6023564501608038 (-51)));
               ("Bending Moment", SFloat f10)]
              false false false _ _ _ _ _ _ eq_refl eq_refl eq_refl)
    as (tx & tv & tm & S & Rx & _).
  exists tx, tv, tm. split; [exact S|]. split; [exact Rx|].
  vm_compute in S. now injection S as <- _ _.
Defined.
